(** * The dex query client of [client/rpc/dex_client.go]

    A shallow embedding of the query operations of the [HTTP] client:
    every operation is a computation over an explicit state that holds
    the remote node (the "world" the transport talks to) and the trace of
    the calls made to the transport and to the codec.  A run either
    returns the Go result pair or panics. *)

From Stdlib Require Import ZArith List String Bool Lia DecimalString.
From Stdlib.Strings Require Import Byte.
Import ListNotations.

Local Open Scope string_scope.
Local Open Scope Z_scope.

(** ** Go values *)

Module Go.

(** A slice is [nil] or a (possibly empty) sequence: the source tells
    [bz == nil] apart from [len(bz) == 0]. *)
Definition slice (A : Type) : Type := option (list A).

Definition bytes : Type := slice byte.

Definition len {A : Type} (s : slice A) : Z :=
  match s with
  | None => 0
  | Some l => Z.of_nat (List.length l)
  end.

Definition is_nil {A : Type} (s : slice A) : bool :=
  match s with
  | None => true
  | Some _ => false
  end.

(** [make([]T, 0)] *)
Definition make0 {A : Type} : slice A := Some [].

(** The [error] interface: a non-nil error is known by its message;
    [nil] is [None] of [option error]. *)
Inductive error : Type := mkError (msg : string).

Definition Error (e : error) : string :=
  match e with mkError m => m end.

(** [errors.New(s)]; [fmt.Errorf] with a format that has no verb is the
    same. *)
Definition errors_New (s : string) : error := mkError s.

(** [fmt.Errorf(prefix + "%s", e.Error())] *)
Definition Errorf_s (prefix : string) (e : error) : error :=
  mkError (prefix ++ Error e).

(** The verb [%d] of [fmt.Sprintf] on an integer. *)
Definition fmt_d (z : Z) : string := NilEmpty.string_of_int (Z.to_int z).

(** [[]byte(s)] *)
Definition bytes_of_string (s : string) : list byte := list_byte_of_string s.

End Go.

Import Go.

(** ** Package [types] *)

Module types.

Definition AccAddress : Type := list byte.
Definition HexData : Type := list byte.
Definition Fixed8 : Type := Z.
Definition ProposalStatus : Type := Z.
Definition SwapStatus : Type := Z.

Record Coin : Type := mkCoin { Denom : string; Amount : Z }.

Definition Coins : Type := list Coin.

(** Modelled from the spec: [Coins.AmountOf] is declared in package
    [types], outside this file.  The spec reads a coin collection as a
    mapping from symbol to amount; the amount of a symbol is the amount
    of its entry, and 0 when it has none. *)
Fixpoint AmountOf (coins : Coins) (denom : string) : Z :=
  match coins with
  | [] => 0
  | coin :: rest =>
      if String.eqb (Denom coin) denom then Amount coin
      else AmountOf rest denom
  end.

(** Modelled from the spec: the account types are declared in package
    [types], outside this file.  An account always has a total coin
    mapping; only a named account has the locked and the frozen one. *)
Inductive NamedAccountImpl : Type :=
  mkNamed (coins locked frozen : Coins).

Inductive AccountImpl : Type :=
| PlainAccount (coins : Coins)
| NamedAcc (n : NamedAccountImpl).

(** The interfaces [Account] and [NamedAccount]: [None] is the nil
    interface value. *)
Definition Account : Type := option AccountImpl.
Definition NamedAccount : Type := option NamedAccountImpl.

Definition implGetCoins (a : AccountImpl) : Coins :=
  match a with
  | PlainAccount c => c
  | NamedAcc (mkNamed c _ _) => c
  end.

Definition namedGetCoins (n : NamedAccountImpl) : Coins :=
  match n with mkNamed c _ _ => c end.

Definition namedGetLockedCoins (n : NamedAccountImpl) : Coins :=
  match n with mkNamed _ l _ => l end.

Definition namedGetFrozenCoins (n : NamedAccountImpl) : Coins :=
  match n with mkNamed _ _ f => f end.

Record TokenBalance : Type := mkTokenBalance {
  Symbol : string;
  Free : Fixed8;
  Locked : Fixed8;
  Frozen : Fixed8
}.

(** The balance record the spec asks for one symbol of an account with
    total holdings [coins] and the subsets [locked] and [frozen]: free is
    the total amount, not reduced by the other two. *)
Definition specBalance (coins locked frozen : Coins) (symbol : string)
  : TokenBalance :=
  {| Symbol := symbol;
     Free := AmountOf coins symbol;
     Locked := AmountOf locked symbol;
     Frozen := AmountOf frozen symbol |}.

(** The parameter structs handed to [cdc.MarshalJSON]. *)
Inductive QueryParams : Type :=
| QueryTimeLocksParams (Account : AccAddress)
| QueryTimeLockParams (Account : AccAddress) (Id : Z)
| QueryProposalsParams (ProposalStatus : ProposalStatus)
                       (NumLatestProposals : Z)
| QueryProposalParams (ProposalID : Z)
| QuerySwapByCreatorParams (Creator : AccAddress) (Status : SwapStatus)
                           (Limit Offset : Z)
| QuerySwapByRecipientParams (Recipient : AccAddress) (Status : SwapStatus)
                             (Limit Offset : Z).

(** The payloads this layer only locates and decodes.  Their
    declarations are in package [types] and [tx]; the client needs their
    zero values and nothing else. *)
Class Payloads : Type := {
  Token : Type;
  zeroToken : Token;
  FeeParam : Type;
  OpenOrder : Type;
  TradingPair : Type;
  OrderBook : Type;
  zeroOrderBook : OrderBook;
  TimeLockRecord : Type;
  zeroTimeLockRecord : TimeLockRecord;
  ProposalImpl : Type;
  AtomicSwap : Type;
  zeroAtomicSwap : AtomicSwap;
  TxInfo : Type
}.

(** [Proposal] is an interface. *)
Definition Proposal `{Payloads} : Type := option ProposalImpl.

End types.

Import types.

(** ** Package [rpc] *)

Module rpc.

Definition AccountStoreName : string := "acc".
Definition ParamABCIPrefix : string := "param".
Definition TimeLockMsgRoute : string := "timelock".
Definition AtomicSwapStoreName : string := "atomic_swap".
Definition TimeLockrcNotFoundErrorCode : Z := 458760.

(** The response of the path-addressed query ([abci.ResponseQuery]
    inside [ctypes.ResultABCIQuery]); [IsOK] compares the code with the
    success code 0. *)
Record ResponseQuery : Type := mkResponse {
  Code : Z;
  Log : string;
  Value : bytes
}.

Record ResultABCIQuery : Type := mkResult { Response : ResponseQuery }.

Definition IsOK (r : ResponseQuery) : bool := Z.eqb (Code r) 0.
Definition GetValue (r : ResponseQuery) : bytes := Value r.

(** The three decoding disciplines of the codec. *)
Inductive Discipline : Type := BinaryLengthPrefixed | BinaryBare | JSON.

(** The targets the client decodes into. *)
Inductive Shape : Type :=
| STokens | SToken | SAccount | SFees | SOpenOrders | STradingPairs
| SOrderBook | STimeLockRecords | STimeLockRecord | SProposals | SProposal
| SAtomicSwap | SAtomicSwaps.

Definition denote `{Payloads} (sh : Shape) : Type :=
  match sh with
  | STokens => slice Token
  | SToken => Token
  | SAccount => Account
  | SFees => slice FeeParam
  | SOpenOrders => slice OpenOrder
  | STradingPairs => slice TradingPair
  | SOrderBook => OrderBook
  | STimeLockRecords => slice TimeLockRecord
  | STimeLockRecord => TimeLockRecord
  | SProposals => slice Proposal
  | SProposal => Proposal
  | SAtomicSwap => AtomicSwap
  | SAtomicSwaps => slice AtomicSwap
  end.

(** What a run leaves behind: every call to the transport, to the codec
    and to standard output, in order. *)
Inductive Event : Type :=
| EvABCIQuery (path : string) (data : bytes)
| EvQueryStore (key : list byte) (storeName : string)
| EvTxInfoSearch (query : string) (prove : bool) (page perPage : Z)
| EvMarshalJSON (p : QueryParams)
| EvUnmarshal (d : Discipline) (sh : Shape) (bz : bytes)
| EvPrintln (s : string).

Definition is_transport (e : Event) : bool :=
  match e with
  | EvABCIQuery _ _ | EvQueryStore _ _ | EvTxInfoSearch _ _ _ _ => true
  | _ => false
  end.

Definition is_decode (e : Event) : bool :=
  match e with
  | EvUnmarshal _ _ _ => true
  | _ => false
  end.

(** The collaborators of the client [c *HTTP]: the transport
    ([ABCIQuery], [QueryStore], [WSEvents.TxInfoSearch]), the codec
    [c.cdc], and the helpers of the packages [rpc], [types] and [msg]
    declared outside this file.  The transport answers from the remote
    node's state [World] and may change it; the codec and the helpers are
    functions of their arguments.  An unmarshal call receives the value
    its pointer argument holds and gives back the value it holds
    afterwards. *)
Class Client `{Payloads} : Type := {
  World : Type;
  rpcABCIQuery :
    string -> bytes -> World ->
    (option ResultABCIQuery * option error) * World;
  rpcQueryStore :
    list byte -> string -> World -> (bytes * option error) * World;
  rpcTxInfoSearch :
    string -> bool -> Z -> Z -> World ->
    (slice TxInfo * option error) * World;
  cdcMarshalJSON : QueryParams -> bytes * option error;
  cdcUnmarshal :
    Discipline -> forall sh : Shape, bytes -> denote sh ->
    denote sh * option error;
  ValidateOffset : Z -> option error;
  ValidateLimit : Z -> option error;
  ValidateSymbol : string -> option error;
  ValidatePair : string -> option error;
  ValidateDepthLevel : Z -> option error;
  ValidateTxSearchQueryStr : string -> option error;
  AccAddressString : AccAddress -> string;
  AccAddressFromBech32 : string -> AccAddress * option error;
  NewSwapStatusFromString : string -> SwapStatus;
  AtomicSwapRoute : string;
  StatusNil : ProposalStatus
}.

(** *** The monad of a query run *)

Inductive Outcome (A : Type) : Type :=
| Returned (a : A)
| Panicked (reason : string).
Arguments Returned {A} a.
Arguments Panicked {A} reason.

Section Run.
Context {P : Payloads} {C : Client}.

Record State : Type := mkState {
  world : World;
  trace : list Event
}.

Definition M (A : Type) : Type := State -> Outcome A * State.

Definition ret {A : Type} (a : A) : M A :=
  fun s => (Returned a, s).

Definition bind {A B : Type} (m : M A) (k : A -> M B) : M B :=
  fun s =>
    match m s with
    | (Returned a, s') => k a s'
    | (Panicked r, s') => (Panicked r, s')
    end.

Definition panic {A : Type} (reason : string) : M A :=
  fun s => (Panicked reason, s).

Definition emit (e : Event) : M unit :=
  fun s => (Returned tt, mkState (world s) (trace s ++ [e])%list).

Definition onWorld {A : Type} (f : World -> A * World) : M A :=
  fun s => let (a, w) := f (world s) in (Returned a, mkState w (trace s)).

Notation "x <- c ;; k" := (bind c (fun x => k))
  (at level 61, c at next level, right associativity).
Notation "' pat <- c ;; k" :=
  (bind c (fun x => match x with pat => k end))
  (at level 61, pat pattern, c at next level, right associativity).

(** *** Calls to the collaborators, recorded in the trace *)

Definition ABCIQuery (path : string) (data : bytes)
  : M (option ResultABCIQuery * option error) :=
  _ <- emit (EvABCIQuery path data) ;;
  onWorld (rpcABCIQuery path data).

Definition QueryStore (key : list byte) (storeName : string)
  : M (bytes * option error) :=
  _ <- emit (EvQueryStore key storeName) ;;
  onWorld (rpcQueryStore key storeName).

Definition WSEventsTxInfoSearch (query : string) (prove : bool)
    (page perPage : Z) : M (slice TxInfo * option error) :=
  _ <- emit (EvTxInfoSearch query prove page perPage) ;;
  onWorld (rpcTxInfoSearch query prove page perPage).

Definition MarshalJSON (p : QueryParams) : M (bytes * option error) :=
  _ <- emit (EvMarshalJSON p) ;;
  ret (cdcMarshalJSON p).

Definition Unmarshal (d : Discipline) (sh : Shape) (bz : bytes)
    (ptr : denote sh) : M (denote sh * option error) :=
  _ <- emit (EvUnmarshal d sh bz) ;;
  ret (cdcUnmarshal d sh bz ptr).

Definition Println (s : string) : M unit := emit (EvPrintln s).

(** [result.Response] on the pointer the transport returned. *)
Definition deref (r : option ResultABCIQuery) : M ResultABCIQuery :=
  match r with
  | Some x => ret x
  | None => panic "invalid memory address or nil pointer dereference"
  end.

(** [account.GetCoins()] on an interface value. *)
Definition accountGetCoins (a : Account) : M Coins :=
  match a with
  | Some impl => ret (implGetCoins impl)
  | None => panic "invalid memory address or nil pointer dereference"
  end.

(** [account.(types.NamedAccount)], the one-result form. *)
Definition assertNamedAccount (a : Account) : M NamedAccount :=
  match a with
  | Some (NamedAcc n) => ret (Some n)
  | Some (PlainAccount _) =>
      panic "interface conversion: not types.NamedAccount: missing method"
  | None =>
      panic "interface conversion: interface is nil, not types.NamedAccount"
  end.

(** [nacc.GetCoins()] *)
Definition naccGetCoins (n : NamedAccount) : M Coins :=
  match n with
  | Some impl => ret (namedGetCoins impl)
  | None => panic "invalid memory address or nil pointer dereference"
  end.

(** [string(bz)] *)
Definition string_of_bytes (bz : bytes) : string :=
  match bz with
  | None => ""
  | Some l => string_of_list_byte l
  end.

(** *** The query operations *)

Definition TxInfoSearch (query : string) (prove : bool) (page perPage : Z)
  : M (slice TxInfo * option error) :=
  match ValidateTxSearchQueryStr query with
  | Some err => ret (None, Some err)
  | None => WSEventsTxInfoSearch query prove page perPage
  end.

Definition ListAllTokens (offset limit : Z)
  : M (slice Token * option error) :=
  match ValidateOffset offset with
  | Some err => ret (None, Some err)
  | None =>
  match ValidateLimit limit with
  | Some err => ret (None, Some err)
  | None =>
    let path := "tokens/list/" ++ fmt_d offset ++ "/" ++ fmt_d limit in
    '(result, err) <- ABCIQuery path None ;;
    match err with
    | Some e => ret (None, Some e)
    | None =>
      result <- deref result ;;
      let bz := GetValue (Response result) in
      let tokens : slice Token := make0 in
      '(tokens, err) <- Unmarshal BinaryLengthPrefixed STokens bz tokens ;;
      ret (tokens, err)
    end
  end
  end.

Definition GetTokenInfo (symbol : string)
  : M (option Token * option error) :=
  match ValidateSymbol symbol with
  | Some err => ret (None, Some err)
  | None =>
    let path := "tokens/info/" ++ symbol in
    '(result, err) <- ABCIQuery path None ;;
    match err with
    | Some e => ret (None, Some e)
    | None =>
      result <- deref result ;;
      let bz := GetValue (Response result) in
      '(token, err) <- Unmarshal BinaryLengthPrefixed SToken bz zeroToken ;;
      ret (Some token, err)
    end
  end.

Definition GetCommitAccount (addr : AccAddress)
  : M (Account * option error) :=
  let key := (bytes_of_string "account:" ++ addr)%list in
  '(bz, err) <- QueryStore key AccountStoreName ;;
  match err with
  | Some e => ret (None, Some e)
  | None =>
    if is_nil bz then ret (None, None)
    else
      '(acc, err) <- Unmarshal BinaryBare SAccount bz None ;;
      match err with
      | Some e => ret (None, Some e)
      | None => ret (acc, err)
      end
  end.

Definition GetAccount (addr : AccAddress) : M (Account * option error) :=
  '(result, err) <- ABCIQuery ("/account/" ++ AccAddressString addr) None ;;
  match err with
  | Some e => ret (None, Some e)
  | None =>
    result <- deref result ;;
    let resp := Response result in
    if negb (IsOK resp) then ret (None, Some (errors_New (Log resp)))
    else
      let value := GetValue (Response result) in
      if len value =? 0 then ret (None, None)
      else
        '(acc, err) <- Unmarshal BinaryBare SAccount value None ;;
        match err with
        | Some e => ret (None, Some e)
        | None => ret (acc, err)
        end
  end.

(** The body of [for _, coin := range coins] in [GetBalances]; [rest]
    is what remains to be visited and [bals] what was appended. *)
Fixpoint GetBalances_range (account : Account) (coins rest : Coins)
    (bals : list TokenBalance) : M (list TokenBalance) :=
  match rest with
  | [] => ret bals
  | coin :: rest' =>
    nacc <- assertNamedAccount account ;;
    let '(locked, frozen) :=
      match nacc with
      | Some n =>
          (AmountOf (namedGetLockedCoins n) (Denom coin),
           AmountOf (namedGetFrozenCoins n) (Denom coin))
      | None => (0, 0)
      end in
    GetBalances_range account coins rest'
      (bals ++ [ {| Symbol := Denom coin;
                    Free := AmountOf coins (Denom coin);
                    Locked := locked;
                    Frozen := frozen |} ])%list
  end.

Definition GetBalances (addr : AccAddress)
  : M (slice TokenBalance * option error) :=
  '(account, err) <- GetAccount addr ;;
  match err with
  | Some e => ret (None, Some e)
  | None =>
    coins <- accountGetCoins account ;;
    bals <- GetBalances_range account coins coins [] ;;
    ret (Some bals, None)
  end.

Definition existsCC (symbol : string) : M bool :=
  '(resp, err) <- ABCIQuery ("tokens/info/" ++ symbol) None ;;
  match err with
  | Some _ => ret false
  | None =>
    resp <- deref resp ;;
    if negb (IsOK (Response resp)) then ret false
    else if len (GetValue (Response resp)) =? 0 then ret false
    else
      '(_, err) <- Unmarshal BinaryLengthPrefixed SToken
                     (GetValue (Response resp)) zeroToken ;;
      match err with
      | Some _ => ret false
      | None => ret true
      end
  end.

Definition GetBalance (addr : AccAddress) (symbol : string)
  : M (option TokenBalance * option error) :=
  match ValidateSymbol symbol with
  | Some err => ret (None, Some err)
  | None =>
    exist <- existsCC symbol ;;
    if negb exist then ret (None, Some (errors_New "symbol not found"))
    else
      '(acc, err) <- GetAccount addr ;;
      match err with
      | Some e => ret (None, Some e)
      | None =>
        nacc <- assertNamedAccount acc ;;
        let '(locked, frozen) :=
          match nacc with
          | Some n =>
              (AmountOf (namedGetLockedCoins n) symbol,
               AmountOf (namedGetFrozenCoins n) symbol)
          | None => (0, 0)
          end in
        coins <- naccGetCoins nacc ;;
        ret (Some {| Symbol := symbol;
                     Free := AmountOf coins symbol;
                     Locked := locked;
                     Frozen := frozen |}, None)
      end
  end.

Definition GetFee : M (slice FeeParam * option error) :=
  '(rawFee, err) <- ABCIQuery (ParamABCIPrefix ++ "/fees") None ;;
  match err with
  | Some e => ret (None, Some e)
  | None =>
    rawFee <- deref rawFee ;;
    let fees : slice FeeParam := None in
    '(fees, err) <- Unmarshal BinaryLengthPrefixed SFees
                      (GetValue (Response rawFee)) fees ;;
    ret (fees, err)
  end.

Definition GetOpenOrders (addr : AccAddress) (pair : string)
  : M (slice OpenOrder * option error) :=
  match ValidatePair pair with
  | Some err => ret (None, Some err)
  | None =>
    let path := "dex/openorders/" ++ pair ++ "/" ++ AccAddressString addr in
    '(rawOrders, err) <- ABCIQuery path None ;;
    match err with
    | Some e => ret (None, Some e)
    | None =>
      rawOrders <- deref rawOrders ;;
      let bz := GetValue (Response rawOrders) in
      let openOrders : slice OpenOrder := make0 in
      if is_nil bz then ret (openOrders, None)
      else
        '(openOrders, err) <- Unmarshal BinaryLengthPrefixed SOpenOrders
                                bz openOrders ;;
        match err with
        | Some e => ret (None, Some e)
        | None => ret (openOrders, None)
        end
    end
  end.

Definition GetTradingPairs (offset limit : Z)
  : M (slice TradingPair * option error) :=
  match ValidateLimit limit with
  | Some err => ret (None, Some err)
  | None =>
  match ValidateOffset offset with
  | Some err => ret (None, Some err)
  | None =>
    let path := "dex/pairs/" ++ fmt_d offset ++ "/" ++ fmt_d limit in
    '(rawTradePairs, err) <- ABCIQuery path None ;;
    match err with
    | Some e => ret (None, Some e)
    | None =>
      rawTradePairs <- deref rawTradePairs ;;
      let pairs : slice TradingPair := make0 in
      if is_nil (GetValue (Response rawTradePairs)) then ret (pairs, None)
      else
        '(pairs, err) <- Unmarshal BinaryLengthPrefixed STradingPairs
                           (GetValue (Response rawTradePairs)) pairs ;;
        ret (pairs, err)
    end
  end
  end.

Definition GetDepth (tradePair : string) (level : Z)
  : M (option OrderBook * option error) :=
  match ValidatePair tradePair with
  | Some err => ret (None, Some err)
  | None =>
  match ValidateDepthLevel level with
  | Some err => ret (None, Some err)
  | None =>
    let path := "dex/orderbook/" ++ tradePair ++ "/" ++ fmt_d level in
    '(rawDepth, err) <- ABCIQuery path None ;;
    match err with
    | Some e => ret (None, Some e)
    | None =>
      rawDepth <- deref rawDepth ;;
      '(ob, err) <- Unmarshal BinaryLengthPrefixed SOrderBook
                      (GetValue (Response rawDepth)) zeroOrderBook ;;
      match err with
      | Some e => ret (None, Some e)
      | None => ret (Some ob, None)
      end
    end
  end
  end.

(** After [MarshalJSON] the source builds an error value with
    [fmt.Errorf] and drops it: there is no [return] in that branch, so
    both outcomes of the encoding continue with the transport call. *)
Definition GetTimelocks (addr : AccAddress)
  : M (slice TimeLockRecord * option error) :=
  let params := QueryTimeLocksParams addr in
  '(bz, err) <- MarshalJSON params ;;
  _ <- match err with
       | Some _ => ret tt
       | None => ret tt
       end ;;
  '(rawRecords, err) <-
    ABCIQuery ("custom/" ++ TimeLockMsgRoute ++ "/" ++ "timelocks") bz ;;
  match err with
  | Some e => ret (None, Some e)
  | None =>
    match rawRecords with
    | None => ret (None, Some (errors_New "zero records"))
    | Some rawRecords =>
      let records : slice TimeLockRecord := make0 in
      '(records, err) <- Unmarshal JSON STimeLockRecords
                           (GetValue (Response rawRecords)) records ;;
      match err with
      | Some e => ret (None, Some e)
      | None => ret (records, None)
      end
    end
  end.

Definition GetTimelock (addr : AccAddress) (recordID : Z)
  : M (option TimeLockRecord * option error) :=
  let params := QueryTimeLockParams addr recordID in
  '(bz, err) <- MarshalJSON params ;;
  match err with
  | Some e =>
      ret (None, Some (Errorf_s "incorrectly formatted request data " e))
  | None =>
    '(rawRecord, err) <-
      ABCIQuery ("custom/" ++ TimeLockMsgRoute ++ "/" ++ "timelock") bz ;;
    match err with
    | Some e => ret (None, Some (Errorf_s "error query " e))
    | None =>
      rawRecord <- deref rawRecord ;;
      if Code (Response rawRecord) =? TimeLockrcNotFoundErrorCode
      then ret (None, None)
      else
        '(record, err) <- Unmarshal JSON STimeLockRecord
                            (GetValue (Response rawRecord))
                            zeroTimeLockRecord ;;
        match err with
        | Some e => ret (None, Some e)
        | None => ret (Some record, None)
        end
    end
  end.

Definition GetProposals (status : ProposalStatus) (numLatest : Z)
  : M (slice Proposal * option error) :=
  let params :=
    QueryProposalsParams
      (if negb (status =? StatusNil) then status else 0)
      (if numLatest >? 0 then numLatest else 0) in
  '(bz, err) <- MarshalJSON params ;;
  match err with
  | Some e => ret (None, Some e)
  | None =>
    '(rawProposals, err) <- ABCIQuery "custom/gov/proposals" bz ;;
    match err with
    | Some e => ret (None, Some e)
    | None =>
      rawProposals <- deref rawProposals ;;
      let proposals : slice Proposal := make0 in
      '(proposals, err) <- Unmarshal JSON SProposals
                             (GetValue (Response rawProposals)) proposals ;;
      ret (proposals, err)
    end
  end.

Definition GetProposal (proposalId : Z) : M (Proposal * option error) :=
  let params := QueryProposalParams proposalId in
  '(bz, err) <- MarshalJSON params ;;
  match err with
  | Some e => ret (None, Some e)
  | None =>
    _ <- Println (string_of_bytes bz) ;;
    '(rawProposals, err) <- ABCIQuery "custom/gov/proposal" bz ;;
    match err with
    | Some e => ret (None, Some e)
    | None =>
      rawProposals <- deref rawProposals ;;
      let proposal : Proposal := None in
      '(proposal, err) <- Unmarshal JSON SProposal
                            (GetValue (Response rawProposals)) proposal ;;
      ret (proposal, err)
    end
  end.

Definition GetSwapByHash (randomNumberHash : HexData)
  : M (AtomicSwap * option error) :=
  let hashKey := ([x01] ++ randomNumberHash)%list in
  '(res, err) <- QueryStore hashKey AtomicSwapStoreName ;;
  match err with
  | Some e => ret (zeroAtomicSwap, Some e)
  | None =>
    if is_nil res
    then ret (zeroAtomicSwap, Some (errors_New "no matched swap record"))
    else
      '(atomicSwap, err) <- Unmarshal BinaryBare SAtomicSwap res
                              zeroAtomicSwap ;;
      match err with
      | Some e => ret (zeroAtomicSwap, Some e)
      | None => ret (atomicSwap, None)
      end
  end.

Definition GetSwapByCreator (creatorAddr swapStatus : string)
    (offset limit : Z) : M (slice AtomicSwap * option error) :=
  let '(addr, err) := AccAddressFromBech32 creatorAddr in
  match err with
  | Some e => ret (None, Some e)
  | None =>
    let status := NewSwapStatusFromString swapStatus in
    let params := QuerySwapByCreatorParams addr status limit offset in
    '(bz, err) <- MarshalJSON params ;;
    match err with
    | Some e => ret (None, Some e)
    | None =>
      '(resp, err) <-
        ABCIQuery ("custom/" ++ AtomicSwapRoute ++ "/" ++ "swapcreator") bz ;;
      match err with
      | Some e => ret (None, Some e)
      | None =>
        resp <- deref resp ;;
        let result : slice AtomicSwap := None in
        '(result, err) <- Unmarshal JSON SAtomicSwaps
                            (GetValue (Response resp)) result ;;
        match err with
        | Some e => ret (None, Some e)
        | None => ret (result, None)
        end
      end
    end
  end.

Definition GetSwapByRecipient (recipientAddr swapStatus : string)
    (offset limit : Z) : M (slice AtomicSwap * option error) :=
  let '(recipient, err) := AccAddressFromBech32 recipientAddr in
  match err with
  | Some e => ret (None, Some e)
  | None =>
    let status := NewSwapStatusFromString swapStatus in
    let params :=
      QuerySwapByRecipientParams recipient status limit offset in
    '(bz, err) <- MarshalJSON params ;;
    match err with
    | Some e => ret (None, Some e)
    | None =>
      '(resp, err) <-
        ABCIQuery ("custom/" ++ AtomicSwapRoute ++ "/" ++ "swaprecipient")
          bz ;;
      match err with
      | Some e => ret (None, Some e)
      | None =>
        resp <- deref resp ;;
        let result : slice AtomicSwap := None in
        '(result, err) <- Unmarshal JSON SAtomicSwaps
                            (GetValue (Response resp)) result ;;
        match err with
        | Some e => ret (None, Some e)
        | None => ret (result, None)
        end
      end
    end
  end.

End Run.

(** The calls of a trace that reached the transport, and those that
    reached a decoder. *)
Definition transport_calls (t : list Event) : list Event :=
  filter is_transport t.

Definition decode_calls (t : list Event) : list Event :=
  filter is_decode t.

(** Kinds of events, for saying what a run never does. *)
Definition is_println (e : Event) : bool :=
  match e with
  | EvPrintln _ => true
  | _ => false
  end.

Definition is_abci (e : Event) : bool :=
  match e with
  | EvABCIQuery _ _ => true
  | _ => false
  end.

Definition is_store (e : Event) : bool :=
  match e with
  | EvQueryStore _ _ => true
  | _ => false
  end.

Definition is_search (e : Event) : bool :=
  match e with
  | EvTxInfoSearch _ _ _ _ => true
  | _ => false
  end.

Definition Discipline_eqb (a b : Discipline) : bool :=
  match a, b with
  | BinaryLengthPrefixed, BinaryLengthPrefixed => true
  | BinaryBare, BinaryBare => true
  | JSON, JSON => true
  | _, _ => false
  end.

(** [silent e]: [e] is not a write to standard output. *)
Definition silent (e : Event) : bool := negb (is_println e).

(** [decodes_with ds e]: if [e] is a decode, its discipline is one of
    [ds]. *)
Definition decodes_with (ds : list Discipline) (e : Event) : bool :=
  match e with
  | EvUnmarshal d _ _ => existsb (Discipline_eqb d) ds
  | _ => true
  end.

(** [reaches_by kind e]: if [e] is a transport call, it is of [kind]. *)
Definition reaches_by (kind : Event -> bool) (e : Event) : bool :=
  negb (is_transport e) || kind e.

Section Footprint.
Context {P : Payloads} {C : Client}.

(** [emits m ok]: from every state, the run of [m] keeps the trace it
    found and adds to it only events that satisfy [ok], whether the run
    returns or panics. *)
Definition emits {A : Type} (m : M A) (ok : Event -> bool) : Prop :=
  forall s : State,
    exists evs : list Event,
      trace (snd (m s)) = (trace s ++ evs)%list /\ forallb ok evs = true.

End Footprint.

End rpc.

Import rpc.

(** ** A stub client

    A transport that answers from a fixed table and a codec that decodes
    by the first byte: the concrete client the examples run on. *)

Module Stub.

Definition payloads : Payloads := {|
  Token := string;
  zeroToken := "";
  FeeParam := Z;
  OpenOrder := Z;
  TradingPair := string;
  OrderBook := list Z;
  zeroOrderBook := [];
  TimeLockRecord := Z;
  zeroTimeLockRecord := 0;
  ProposalImpl := Z;
  AtomicSwap := Z;
  zeroAtomicSwap := 0;
  TxInfo := Z
|}.

(** What the remote node answers, and whether the codec can encode the
    parameters. *)
Record Node : Type := mkNode {
  abci : string -> bytes -> option ResultABCIQuery * option error;
  store : list byte -> string -> bytes * option error;
  marshalOK : bool
}.

Definition BNB100 : Coins := [mkCoin "BNB" 100].
Definition holdings : Coins := [mkCoin "BNB" 100; mkCoin "BUSD" 50].

Definition plainAccount : AccountImpl := PlainAccount BNB100.
Definition namedAccount : AccountImpl :=
  NamedAcc (mkNamed holdings [mkCoin "BNB" 10] []).

Definition decoded (sh : Shape) (first : byte) : @denote payloads sh :=
  match sh return @denote payloads sh with
  | STokens => Some ["BNB"; "BUSD"]
  | SToken => "BNB"
  | SAccount =>
      match first with
      | x00 => Some plainAccount
      | _ => Some namedAccount
      end
  | SFees => Some [375]
  | SOpenOrders => Some [1; 2]
  | STradingPairs => Some ["BNB_BUSD"]
  | SOrderBook => [1; 2; 3; 4]
  | STimeLockRecords => Some [7]
  | STimeLockRecord => 7
  | SProposals => Some [Some 1]
  | SProposal => Some 1
  | SAtomicSwap => 9
  | SAtomicSwaps => Some [9]
  end.

(** Zero-length input is refused and leaves the target as it was. *)
Definition unmarshal (d : Discipline) (sh : Shape) (bz : bytes)
    (ptr : @denote payloads sh) : @denote payloads sh * option error :=
  match bz with
  | Some (b :: _) => (decoded sh b, None)
  | _ => (ptr, Some (mkError "cannot decode empty bytes"))
  end.

Definition marshal (ok : bool) (p : QueryParams) : bytes * option error :=
  if ok then (Some (bytes_of_string "{}"), None)
  else (None, Some (mkError "unsupported type")).

Definition rejectIf (b : bool) (msg : string) : option error :=
  if b then Some (mkError msg) else None.

Definition client (n : Node) : @Client payloads := {|
  World := nat;
  rpcABCIQuery := fun path data w => (abci n path data, S w);
  rpcQueryStore := fun key name w => (store n key name, S w);
  rpcTxInfoSearch :=
    fun _ _ _ _ w =>
      ((Some [42] : slice (@TxInfo payloads), None : option error), S w);
  cdcMarshalJSON := marshal (marshalOK n);
  cdcUnmarshal := unmarshal;
  ValidateOffset := fun z => rejectIf (z <? 0) "offset out of range";
  ValidateLimit :=
    fun z => rejectIf ((z <? 0) || (1000 <? z)) "limit out of range";
  ValidateSymbol := fun s => rejectIf (String.eqb s "") "empty symbol";
  ValidatePair := fun s => rejectIf (String.eqb s "") "empty pair";
  ValidateDepthLevel :=
    fun z => rejectIf (negb (existsb (Z.eqb z) [5; 10; 20; 50; 100]))
                      "unsupported depth level";
  ValidateTxSearchQueryStr :=
    fun s => rejectIf (String.eqb s "") "empty query";
  AccAddressString := fun a => "bnb1" ++ string_of_list_byte a;
  AccAddressFromBech32 :=
    fun s => if String.eqb s ""
             then ([], Some (mkError "empty address"))
             else (list_byte_of_string s, None);
  NewSwapStatusFromString := fun _ => 0;
  AtomicSwapRoute := "atomicSwap";
  StatusNil := 0
|}.

Definition st0 (n : Node) : @State payloads (client n) :=
  @mkState payloads (client n) O [].

Definition ok (value : bytes) : option ResultABCIQuery * option error :=
  (Some (mkResult (mkResponse 0 "" value)), None).

Definition failed (code : Z) (log : string) (value : bytes)
  : option ResultABCIQuery * option error :=
  (Some (mkResult (mkResponse code log value)), None).

(** A node that has no record at all: every path answers success with
    no value, every store key is absent. *)
Definition emptyNode : Node :=
  mkNode (fun _ _ => ok None) (fun _ _ => (None, None)) true.

(** A node that answers every path with the same response. *)
Definition constNode (r : option ResultABCIQuery * option error) : Node :=
  mkNode (fun _ _ => r) (fun _ _ => (None, None)) true.

(** A node that knows the token and holds the account encoded as
    [acc]. *)
Definition accountNode (acc : bytes) : Node :=
  mkNode (fun path _ =>
            if String.prefix "tokens/info/" path then ok (Some [x01])
            else ok acc)
         (fun _ _ => (acc, None)) true.

Definition addr : AccAddress := list_byte_of_string "alice".

(** A node that cannot be reached: both transport primitives fail. *)
Definition refused : error := mkError "connection refused".

Definition downNode : Node :=
  mkNode (fun _ _ => (None, Some refused)) (fun _ _ => (None, Some refused))
         true.

(** A node that answers every path and every store key with the same
    value, under success. *)
Definition answering (v : bytes) : Node :=
  mkNode (fun _ _ => ok v) (fun _ _ => (v, None)) true.

(** A node that knows every token and answers the account query with a
    failure whose log reads like the probe's own error. *)
Definition relayNode : Node :=
  mkNode (fun path _ =>
            if String.prefix "tokens/info/" path then ok (Some [x01])
            else failed 5 "symbol not found" None)
         (fun _ _ => (None, None)) true.

(** The same node behind a codec that cannot encode parameters. *)
Definition unencodable (v : bytes) : Node :=
  mkNode (fun _ _ => ok v) (fun _ _ => (v, None)) false.

End Stub.

(** ** Properties of the query operations *)

Section Laws.
Context {P : Payloads} {C : Client}.

Lemma transport_calls_app (t u : list Event) :
  transport_calls (t ++ u) = (transport_calls t ++ transport_calls u)%list.
Proof. apply filter_app. Qed.

Lemma decode_calls_app (t u : list Event) :
  decode_calls (t ++ u) = (decode_calls t ++ decode_calls u)%list.
Proof. apply filter_app. Qed.

Lemma bind_ret_l {A B : Type} (a : A) (k : A -> M B) (s : State) :
  bind (ret a) k s = k a s.
Proof. reflexivity. Qed.

Lemma bind_panic {A B : Type} (r : string) (k : A -> M B) (s : State) :
  bind (panic r) k s = (Panicked r, s).
Proof. reflexivity. Qed.

Lemma bind_assoc {A B D : Type} (m : M A) (k : A -> M B) (h : B -> M D)
    (s : State) :
  bind (bind m k) h s = bind m (fun a => bind (k a) h) s.
Proof.
  unfold bind. destruct (m s) as [[a | r] s']; reflexivity.
Qed.

(** One transport call: the event is appended, the node answers and
    moves on. *)
Lemma ABCIQuery_run (path : string) (data : bytes) (s : State) :
  ABCIQuery path data s =
    (Returned (fst (rpcABCIQuery path data (world s))),
     mkState (snd (rpcABCIQuery path data (world s)))
             (trace s ++ [EvABCIQuery path data])).
Proof.
  unfold ABCIQuery, bind, emit, onWorld. simpl.
  destruct (rpcABCIQuery path data (world s)); reflexivity.
Qed.

Lemma QueryStore_run (key : list byte) (name : string) (s : State) :
  QueryStore key name s =
    (Returned (fst (rpcQueryStore key name (world s))),
     mkState (snd (rpcQueryStore key name (world s)))
             (trace s ++ [EvQueryStore key name])).
Proof.
  unfold QueryStore, bind, emit, onWorld. simpl.
  destruct (rpcQueryStore key name (world s)); reflexivity.
Qed.

Lemma Unmarshal_run (d : Discipline) (sh : Shape) (bz : bytes)
    (ptr : denote sh) (s : State) :
  Unmarshal d sh bz ptr s =
    (Returned (cdcUnmarshal d sh bz ptr),
     mkState (world s) (trace s ++ [EvUnmarshal d sh bz])).
Proof. reflexivity. Qed.

Lemma MarshalJSON_run (p : QueryParams) (s : State) :
  MarshalJSON p s =
    (Returned (cdcMarshalJSON p),
     mkState (world s) (trace s ++ [EvMarshalJSON p])).
Proof. reflexivity. Qed.

End Laws.

(** *** Store keys *)

(** C8. The committed-account lookup makes exactly one transport call, a
    read of store "acc" at the key made of the bytes of "account:" (61 63
    63 6f 75 6e 74 3a) followed by the raw address bytes; the swap-by-hash
    lookup makes exactly one transport call, a read of store "atomic_swap"
    at the key made of the byte 0x01 followed by the hash bytes. *)
Theorem store_key_wire_contract {P : Payloads} {C : Client} :
  (forall (addr : AccAddress) (s : State),
     transport_calls (trace (snd (GetCommitAccount addr s))) =
       (transport_calls (trace s) ++
        [EvQueryStore
           ([x61; x63; x63; x6f; x75; x6e; x74; x3a] ++ addr) "acc"])%list)
  /\
  (forall (randomNumberHash : HexData) (s : State),
     transport_calls (trace (snd (GetSwapByHash randomNumberHash s))) =
       (transport_calls (trace s) ++
        [EvQueryStore (x01 :: randomNumberHash) "atomic_swap"])%list).
Proof.
  split; intros x s.
  - unfold GetCommitAccount, bind. rewrite QueryStore_run.
    destruct (rpcQueryStore _ _ (world s)) as [[bz [e |]] w]; simpl;
      [ rewrite transport_calls_app; reflexivity | ].
    destruct (is_nil bz); simpl;
      [ rewrite transport_calls_app; reflexivity | ].
    destruct (cdcUnmarshal BinaryBare SAccount bz None) as [acc [e |]];
      simpl; rewrite !transport_calls_app; simpl; rewrite app_nil_r;
      reflexivity.
  - unfold GetSwapByHash, bind. rewrite QueryStore_run.
    destruct (rpcQueryStore _ _ (world s)) as [[res [e |]] w]; simpl;
      [ rewrite transport_calls_app; reflexivity | ].
    destruct (is_nil res); simpl;
      [ rewrite transport_calls_app; reflexivity | ].
    destruct (cdcUnmarshal BinaryBare SAtomicSwap res zeroAtomicSwap)
      as [sw [e |]]; simpl; rewrite !transport_calls_app; simpl;
      rewrite app_nil_r; reflexivity.
Qed.

(** *** Runs of the single lookups *)

Section Lookups.
Context {P : Payloads} {C : Client}.

Lemma GetTimelock_not_found (addr : AccAddress) (recordID : Z) (s : State)
    (bz : bytes) (r : ResultABCIQuery) (w' : World) :
  cdcMarshalJSON (QueryTimeLockParams addr recordID) = (bz, None) ->
  rpcABCIQuery "custom/timelock/timelock" bz (world s) = ((Some r, None), w') ->
  Code (Response r) = TimeLockrcNotFoundErrorCode ->
  GetTimelock addr recordID s =
    (Returned (None, None),
     mkState w' ((trace s
                    ++ [EvMarshalJSON (QueryTimeLockParams addr recordID)])
                   ++ [EvABCIQuery "custom/timelock/timelock" bz])).
Proof.
  intros Hm Hq Hc. unfold GetTimelock, bind.
  rewrite MarshalJSON_run, Hm. simpl.
  change ("custom/" ++ TimeLockMsgRoute ++ "/" ++ "timelock")%string
    with "custom/timelock/timelock"%string.
  rewrite ABCIQuery_run. simpl. rewrite Hq. simpl.
  rewrite Hc, Z.eqb_refl. reflexivity.
Qed.

(** The four ways [GetAccount] ends, by what the transport answered. *)
Lemma GetAccount_transport_error (addr : AccAddress) (s : State)
    (res : option ResultABCIQuery) (e : error) (w' : World) :
  rpcABCIQuery ("/account/" ++ AccAddressString addr) None (world s) = ((res, Some e), w') ->
  GetAccount addr s =
    (Returned (None, Some e),
     mkState w' (trace s ++ [EvABCIQuery ("/account/" ++ AccAddressString addr) None])).
Proof.
  intros Hq. unfold GetAccount, bind.
  rewrite ABCIQuery_run, Hq. reflexivity.
Qed.

Lemma GetAccount_remote_error (addr : AccAddress) (s : State)
    (r : ResultABCIQuery) (w' : World) :
  rpcABCIQuery ("/account/" ++ AccAddressString addr) None (world s) = ((Some r, None), w') ->
  IsOK (Response r) = false ->
  GetAccount addr s =
    (Returned (None, Some (errors_New (Log (Response r)))),
     mkState w' (trace s ++ [EvABCIQuery ("/account/" ++ AccAddressString addr) None])).
Proof.
  intros Hq Hok. unfold GetAccount, bind.
  rewrite ABCIQuery_run, Hq. simpl. rewrite Hok. reflexivity.
Qed.

Lemma GetAccount_empty (addr : AccAddress) (s : State)
    (r : ResultABCIQuery) (w' : World) :
  rpcABCIQuery ("/account/" ++ AccAddressString addr) None (world s) = ((Some r, None), w') ->
  IsOK (Response r) = true ->
  len (Value (Response r)) = 0 ->
  GetAccount addr s =
    (Returned (None, None),
     mkState w' (trace s ++ [EvABCIQuery ("/account/" ++ AccAddressString addr) None])).
Proof.
  intros Hq Hok Hlen. unfold GetAccount, bind.
  rewrite ABCIQuery_run, Hq. simpl. rewrite Hok. simpl.
  unfold GetValue. rewrite Hlen. reflexivity.
Qed.

Lemma GetAccount_value (addr : AccAddress) (s : State)
    (r : ResultABCIQuery) (w' : World) :
  rpcABCIQuery ("/account/" ++ AccAddressString addr) None (world s) = ((Some r, None), w') ->
  IsOK (Response r) = true ->
  len (Value (Response r)) <> 0 ->
  GetAccount addr s =
    (Returned
       (match cdcUnmarshal BinaryBare SAccount (Value (Response r)) None with
        | (_, Some e) => (None, Some e)
        | (acc, None) => (acc, None)
        end),
     mkState w' ((trace s
                    ++ [EvABCIQuery ("/account/" ++ AccAddressString addr)
                          None])
                   ++ [EvUnmarshal BinaryBare SAccount
                         (Value (Response r))])).
Proof.
  intros Hq Hok Hlen. unfold GetAccount, bind.
  rewrite ABCIQuery_run, Hq. simpl. rewrite Hok. simpl.
  unfold GetValue. apply Z.eqb_neq in Hlen. rewrite Hlen.
  unfold Unmarshal, bind, emit, ret. simpl.
  destruct (cdcUnmarshal BinaryBare SAccount (Value (Response r)) None)
    as [acc [e |]]; reflexivity.
Qed.

Lemma GetCommitAccount_absent (addr : AccAddress) (s : State) (w' : World) :
  rpcQueryStore (bytes_of_string "account:" ++ addr)%list AccountStoreName (world s) =
    ((None, None), w') ->
  GetCommitAccount addr s =
    (Returned (None, None),
     mkState w' (trace s ++ [EvQueryStore (bytes_of_string "account:" ++ addr)%list
                               AccountStoreName])).
Proof.
  intros Hq. unfold GetCommitAccount, bind.
  rewrite QueryStore_run, Hq. reflexivity.
Qed.

Lemma GetSwapByHash_absent (h : HexData) (s : State) (w' : World) :
  rpcQueryStore (x01 :: h) AtomicSwapStoreName (world s) =
    ((None, None), w') ->
  GetSwapByHash h s =
    (Returned (zeroAtomicSwap, Some (errors_New "no matched swap record")),
     mkState w' (trace s ++ [EvQueryStore (x01 :: h) AtomicSwapStoreName])).
Proof.
  intros Hq. unfold GetSwapByHash, bind.
  change ([x01] ++ h)%list with (x01 :: h).
  rewrite QueryStore_run, Hq. reflexivity.
Qed.

End Lookups.

(** *** The time-lock sentinel *)

(** C6. When the parameters encode and the transport answers the single
    time-lock lookup with status code 458760, then whatever the value
    bytes and the log text of that response are, [GetTimelock] returns
    the absent result: a nil record and a nil error, and nothing is handed
    to a decoder. *)
Theorem GetTimelock_sentinel_absent {P : Payloads} {C : Client}
    (addr : AccAddress) (recordID : Z) (s : State) (bz value : bytes)
    (log : string) (w' : World) :
  cdcMarshalJSON (QueryTimeLockParams addr recordID) = (bz, None) ->
  rpcABCIQuery "custom/timelock/timelock" bz (world s) =
    ((Some (mkResult (mkResponse 458760 log value)), None), w') ->
  fst (GetTimelock addr recordID s) = Returned (None, None) /\
  decode_calls (trace (snd (GetTimelock addr recordID s))) =
    decode_calls (trace s).
Proof.
  intros Hm Hq.
  rewrite (GetTimelock_not_found addr recordID s bz _ w' Hm Hq eq_refl).
  split; [ reflexivity | ].
  simpl. rewrite !decode_calls_app. simpl. now rewrite !app_nil_r.
Qed.

Lemma GetTimelock_sentinel_absent_witness :
  let n := Stub.constNode
             (Stub.failed 458760 "record not found" (Some [x01; x02])) in
  fst (GetTimelock (C := Stub.client n) Stub.addr 3 (Stub.st0 n)) =
    Returned (None, None) /\
  decode_calls
    (trace (snd (GetTimelock (C := Stub.client n) Stub.addr 3 (Stub.st0 n)))) =
    decode_calls (trace (Stub.st0 n)).
Proof.
  intro n.
  apply (GetTimelock_sentinel_absent (C := Stub.client n) Stub.addr 3
           (Stub.st0 n) (Some (bytes_of_string "{}")) (Some [x01; x02])
           "record not found" 1%nat); reflexivity.
Defined.

(** *** Absent records *)

(** C2, as the code has it.  When the record does not exist, [GetAccount]
    (success status, zero-length value), [GetCommitAccount] (no value under
    the key) and [GetTimelock] (sentinel status) return a nil value and a
    nil error; [GetSwapByHash] (no value under the key) returns the zero
    swap together with the error "no matched swap record". *)
Theorem absent_record_results {P : Payloads} {C : Client} :
  (forall (addr : AccAddress) (s : State) (r : ResultABCIQuery) (w' : World),
     rpcABCIQuery ("/account/" ++ AccAddressString addr) None (world s) =
       ((Some r, None), w') ->
     IsOK (Response r) = true ->
     len (Value (Response r)) = 0 ->
     fst (GetAccount addr s) = Returned (None, None))
  /\
  (forall (addr : AccAddress) (s : State) (w' : World),
     rpcQueryStore (bytes_of_string "account:" ++ addr)%list "acc" (world s) =
       ((None, None), w') ->
     fst (GetCommitAccount addr s) = Returned (None, None))
  /\
  (forall (addr : AccAddress) (recordID : Z) (s : State) (bz : bytes)
          (r : ResultABCIQuery) (w' : World),
     cdcMarshalJSON (QueryTimeLockParams addr recordID) = (bz, None) ->
     rpcABCIQuery "custom/timelock/timelock" bz (world s) =
       ((Some r, None), w') ->
     Code (Response r) = TimeLockrcNotFoundErrorCode ->
     fst (GetTimelock addr recordID s) = Returned (None, None))
  /\
  (forall (randomNumberHash : HexData) (s : State) (w' : World),
     rpcQueryStore (x01 :: randomNumberHash) "atomic_swap" (world s) =
       ((None, None), w') ->
     fst (GetSwapByHash randomNumberHash s) =
       Returned (zeroAtomicSwap,
                 Some (errors_New "no matched swap record"))).
Proof.
  repeat split.
  - intros addr s r w' Hq Hok Hlen.
    now rewrite (GetAccount_empty addr s r w' Hq Hok Hlen).
  - intros addr s w' Hq. now rewrite (GetCommitAccount_absent addr s w' Hq).
  - intros addr recordID s bz r w' Hm Hq Hc.
    now rewrite (GetTimelock_not_found addr recordID s bz r w' Hm Hq Hc).
  - intros h s w' Hq. now rewrite (GetSwapByHash_absent h s w' Hq).
Qed.

Lemma absent_record_results_witness :
  let n := Stub.emptyNode in
  let t := Stub.constNode (Stub.failed 458760 "record not found" None) in
  fst (GetAccount (C := Stub.client n) Stub.addr (Stub.st0 n)) =
    Returned (None, None) /\
  fst (GetCommitAccount (C := Stub.client n) Stub.addr (Stub.st0 n)) =
    Returned (None, None) /\
  fst (GetTimelock (C := Stub.client t) Stub.addr 3 (Stub.st0 t)) =
    Returned (None, None) /\
  fst (GetSwapByHash (C := Stub.client n) [x0c] (Stub.st0 n)) =
    Returned (0, Some (errors_New "no matched swap record")).
Proof.
  intros n t.
  pose proof (absent_record_results (C := Stub.client n)) as [Ha [Hc [_ Hs]]].
  pose proof (absent_record_results (C := Stub.client t)) as [_ [_ [Ht _]]].
  split; [ | split; [ | split ] ].
  - eapply Ha; reflexivity.
  - eapply Hc; reflexivity.
  - eapply Ht; reflexivity.
  - eapply Hs; reflexivity.
Defined.

(** C2 as stated fails for the swap lookup: on a node whose swap store has
    nothing under the key, [GetSwapByHash] returns an error, and the value
    beside it is the zero swap. *)
Lemma GetSwapByHash_absent_is_error :
  let n := Stub.emptyNode in
  let out := fst (GetSwapByHash (C := Stub.client n) [x0c] (Stub.st0 n)) in
  rpcQueryStore (Client := Stub.client n) [x01; x0c] "atomic_swap" O =
    ((None, None), 1%nat) /\
  out = Returned (0, Some (errors_New "no matched swap record")) /\
  ~ (exists v, out = Returned (v, None)).
Proof.
  intros n out. repeat split.
  intros [v Hv]. discriminate Hv.
Qed.


(** *** Classification of the account response *)

(** C1, as the code has it.  [GetAccount] settles what kind of response it
    has before any decode: a transport error is returned as it is; a
    non-success status code gives an error carrying the remote log text;
    a success with a zero-length value gives the absent result; in these
    three cases nothing is handed to a decoder.  Only a success with a
    non-empty value reaches the bare-binary decoder.  [GetBalances] reads
    the account through [GetAccount], so a non-success status gives it the
    same error and no decode. *)
Theorem GetAccount_classifies_before_decode {P : Payloads} {C : Client}
    (addr : AccAddress) (s : State) (w' : World) :
  (forall (res : option ResultABCIQuery) (e : error),
     rpcABCIQuery ("/account/" ++ AccAddressString addr) None (world s) =
       ((res, Some e), w') ->
     fst (GetAccount addr s) = Returned (None, Some e) /\
     decode_calls (trace (snd (GetAccount addr s))) = decode_calls (trace s))
  /\
  (forall r : ResultABCIQuery,
     rpcABCIQuery ("/account/" ++ AccAddressString addr) None (world s) =
       ((Some r, None), w') ->
     IsOK (Response r) = false ->
     fst (GetAccount addr s) =
       Returned (None, Some (errors_New (Log (Response r)))) /\
     decode_calls (trace (snd (GetAccount addr s))) = decode_calls (trace s) /\
     fst (GetBalances addr s) =
       Returned (None, Some (errors_New (Log (Response r)))) /\
     decode_calls (trace (snd (GetBalances addr s))) = decode_calls (trace s))
  /\
  (forall r : ResultABCIQuery,
     rpcABCIQuery ("/account/" ++ AccAddressString addr) None (world s) =
       ((Some r, None), w') ->
     IsOK (Response r) = true ->
     len (Value (Response r)) = 0 ->
     fst (GetAccount addr s) = Returned (None, None) /\
     decode_calls (trace (snd (GetAccount addr s))) = decode_calls (trace s))
  /\
  (forall r : ResultABCIQuery,
     rpcABCIQuery ("/account/" ++ AccAddressString addr) None (world s) =
       ((Some r, None), w') ->
     IsOK (Response r) = true ->
     len (Value (Response r)) <> 0 ->
     fst (GetAccount addr s) =
       Returned
         (match cdcUnmarshal BinaryBare SAccount (Value (Response r)) None with
          | (_, Some e) => (None, Some e)
          | (acc, None) => (acc, None)
          end) /\
     decode_calls (trace (snd (GetAccount addr s))) =
       (decode_calls (trace s) ++
        [EvUnmarshal BinaryBare SAccount (Value (Response r))])%list).
Proof.
  assert (Hd : forall (t : list Event) (p : string),
             decode_calls (t ++ [EvABCIQuery p None]) = decode_calls t).
  { intros t p. rewrite decode_calls_app. simpl. apply app_nil_r. }
  split; [ | split; [ | split ] ].
  - intros res e Hq. rewrite (GetAccount_transport_error addr s res e w' Hq).
    simpl. auto.
  - intros r Hq Hok. unfold GetBalances, bind.
    rewrite (GetAccount_remote_error addr s r w' Hq Hok). simpl. auto.
  - intros r Hq Hok Hlen. rewrite (GetAccount_empty addr s r w' Hq Hok Hlen).
    simpl. auto.
  - intros r Hq Hok Hlen. rewrite (GetAccount_value addr s r w' Hq Hok Hlen).
    simpl. split; [ reflexivity | ].
    rewrite decode_calls_app, Hd. reflexivity.
Qed.

Lemma GetAccount_classifies_before_decode_witness :
  let n := Stub.constNode (Stub.failed 7 "account query failed" (Some [x01])) in
  fst (GetAccount (C := Stub.client n) Stub.addr (Stub.st0 n)) =
    Returned (None, Some (errors_New "account query failed")) /\
  decode_calls
    (trace (snd (GetAccount (C := Stub.client n) Stub.addr (Stub.st0 n)))) = []
  /\
  fst (GetBalances (C := Stub.client n) Stub.addr (Stub.st0 n)) =
    Returned (None, Some (errors_New "account query failed")) /\
  decode_calls
    (trace (snd (GetBalances (C := Stub.client n) Stub.addr (Stub.st0 n)))) = [].
Proof.
  intro n.
  pose proof (GetAccount_classifies_before_decode (C := Stub.client n)
                Stub.addr (Stub.st0 n) 1%nat) as [_ [H _]].
  apply (H (mkResult (mkResponse 7 "account query failed" (Some [x01]))));
    reflexivity.
Defined.

(** C1 as stated fails for the order-book query: the node answers with
    status code 1 and a log text, and [GetDepth] hands the value bytes to
    the length-prefixed decoder and returns what it decoded, with no
    error. *)
Lemma GetDepth_decodes_failed_response :
  let r := mkResponse 1 "internal error" (Some [x01]) in
  let n := Stub.constNode (Some (mkResult r), None) in
  let out := GetDepth (C := Stub.client n) "BNB_BUSD" 5 (Stub.st0 n) in
  IsOK r = false /\
  Code r <> TimeLockrcNotFoundErrorCode /\
  fst out = Returned (Some [1; 2; 3; 4], None) /\
  decode_calls (trace (snd out)) =
    [EvUnmarshal BinaryLengthPrefixed SOrderBook (Some [x01])].
Proof.
  intros r n out. split; [ reflexivity | ].
  split; [ discriminate | ]. split; reflexivity.
Qed.


(** *** Validation *)

(** C3, as the code has it.  In [TxInfoSearch], [ListAllTokens],
    [GetTokenInfo], [GetBalance], [GetOpenOrders], [GetTradingPairs] and
    [GetDepth] a parameter that fails its validator ends the operation
    with that validation failure and with the state untouched: no
    transport call, no codec call, nothing before the validators.  The two
    swap listings validate nothing but the address text: when it does not
    decode they end the same way. *)
Theorem failed_validation_stops_first {P : Payloads} {C : Client} (s : State) :
  (forall query prove page perPage e,
     ValidateTxSearchQueryStr query = Some e ->
     TxInfoSearch query prove page perPage s = (Returned (None, Some e), s))
  /\
  (forall offset limit e,
     ValidateOffset offset = Some e ->
     ListAllTokens offset limit s = (Returned (None, Some e), s))
  /\
  (forall offset limit e,
     ValidateOffset offset = None -> ValidateLimit limit = Some e ->
     ListAllTokens offset limit s = (Returned (None, Some e), s))
  /\
  (forall symbol e,
     ValidateSymbol symbol = Some e ->
     GetTokenInfo symbol s = (Returned (None, Some e), s))
  /\
  (forall addr symbol e,
     ValidateSymbol symbol = Some e ->
     GetBalance addr symbol s = (Returned (None, Some e), s))
  /\
  (forall addr pair e,
     ValidatePair pair = Some e ->
     GetOpenOrders addr pair s = (Returned (None, Some e), s))
  /\
  (forall offset limit e,
     ValidateLimit limit = Some e ->
     GetTradingPairs offset limit s = (Returned (None, Some e), s))
  /\
  (forall offset limit e,
     ValidateLimit limit = None -> ValidateOffset offset = Some e ->
     GetTradingPairs offset limit s = (Returned (None, Some e), s))
  /\
  (forall tradePair level e,
     ValidatePair tradePair = Some e ->
     GetDepth tradePair level s = (Returned (None, Some e), s))
  /\
  (forall tradePair level e,
     ValidatePair tradePair = None -> ValidateDepthLevel level = Some e ->
     GetDepth tradePair level s = (Returned (None, Some e), s))
  /\
  (forall creatorAddr swapStatus offset limit a e,
     AccAddressFromBech32 creatorAddr = (a, Some e) ->
     GetSwapByCreator creatorAddr swapStatus offset limit s =
       (Returned (None, Some e), s))
  /\
  (forall recipientAddr swapStatus offset limit a e,
     AccAddressFromBech32 recipientAddr = (a, Some e) ->
     GetSwapByRecipient recipientAddr swapStatus offset limit s =
       (Returned (None, Some e), s)).
Proof.
  repeat match goal with |- _ /\ _ => split end; intros.
  - unfold TxInfoSearch. now rewrite H.
  - unfold ListAllTokens. now rewrite H.
  - unfold ListAllTokens. now rewrite H, H0.
  - unfold GetTokenInfo. now rewrite H.
  - unfold GetBalance. now rewrite H.
  - unfold GetOpenOrders. now rewrite H.
  - unfold GetTradingPairs. now rewrite H.
  - unfold GetTradingPairs. now rewrite H, H0.
  - unfold GetDepth. now rewrite H.
  - unfold GetDepth. now rewrite H, H0.
  - unfold GetSwapByCreator. now rewrite H.
  - unfold GetSwapByRecipient. now rewrite H.
Qed.

Lemma failed_validation_stops_first_witness :
  let n := Stub.emptyNode in
  ListAllTokens (C := Stub.client n) (-1) 10 (Stub.st0 n) =
    (Returned (None, Some (mkError "offset out of range")), Stub.st0 n) /\
  GetTradingPairs (C := Stub.client n) 0 1001 (Stub.st0 n) =
    (Returned (None, Some (mkError "limit out of range")), Stub.st0 n) /\
  GetDepth (C := Stub.client n) "BNB_BUSD" 7 (Stub.st0 n) =
    (Returned (None, Some (mkError "unsupported depth level")), Stub.st0 n) /\
  GetBalance (C := Stub.client n) Stub.addr "" (Stub.st0 n) =
    (Returned (None, Some (mkError "empty symbol")), Stub.st0 n).
Proof.
  intro n.
  pose proof (failed_validation_stops_first (C := Stub.client n) (Stub.st0 n))
    as [_ [Hoff [_ [_ [Hsym [_ [Hlim [_ [_ [Hlvl _]]]]]]]]]].
  split; [ | split; [ | split ] ].
  - apply Hoff. reflexivity.
  - apply Hlim. reflexivity.
  - apply Hlvl; reflexivity.
  - apply Hsym. reflexivity.
Defined.

(** C3 as stated fails for the swap listing: -1 is an offset the offset
    validator refuses, and [GetSwapByCreator] still sends the query. *)
Lemma GetSwapByCreator_negative_offset_is_sent :
  let n := Stub.emptyNode in
  let out :=
    GetSwapByCreator (C := Stub.client n) "bnb1creator" "" (-1) 10
      (Stub.st0 n) in
  ValidateOffset (Client := Stub.client n) (-1) =
    Some (mkError "offset out of range") /\
  transport_calls (trace (snd out)) =
    [EvABCIQuery "custom/atomicSwap/swapcreator"
       (Some (bytes_of_string "{}"))] /\
  In (EvMarshalJSON
        (QuerySwapByCreatorParams (list_byte_of_string "bnb1creator") 0 10
           (-1)))
     (trace (snd out)).
Proof.
  intros n out. split; [ reflexivity | ]. split; [ reflexivity | ].
  left. reflexivity.
Qed.

(** *** Zero-length values of the list queries *)

(** C7, as the code has it.  When the parameters are valid and the
    transport answers with a response whose value is nil, [GetOpenOrders]
    and [GetTradingPairs] return the empty sequence (not nil) with no
    error, and nothing is handed to a decoder. *)
Theorem nil_value_gives_empty_sequence {P : Payloads} {C : Client} (s : State) :
  (forall (addr : AccAddress) (pair : string) (r : ResultABCIQuery)
          (w' : World),
     ValidatePair pair = None ->
     rpcABCIQuery ("dex/openorders/" ++ pair ++ "/" ++ AccAddressString addr)
       None (world s) = ((Some r, None), w') ->
     Value (Response r) = None ->
     fst (GetOpenOrders addr pair s) = Returned (Some [], None) /\
     decode_calls (trace (snd (GetOpenOrders addr pair s))) =
       decode_calls (trace s))
  /\
  (forall (offset limit : Z) (r : ResultABCIQuery) (w' : World),
     ValidateLimit limit = None ->
     ValidateOffset offset = None ->
     rpcABCIQuery ("dex/pairs/" ++ fmt_d offset ++ "/" ++ fmt_d limit)
       None (world s) = ((Some r, None), w') ->
     Value (Response r) = None ->
     fst (GetTradingPairs offset limit s) = Returned (Some [], None) /\
     decode_calls (trace (snd (GetTradingPairs offset limit s))) =
       decode_calls (trace s)).
Proof.
  split.
  - intros addr pair r w' Hv Hq Hnil. unfold GetOpenOrders. rewrite Hv.
    unfold bind. rewrite ABCIQuery_run, Hq. simpl.
    unfold GetValue. rewrite Hnil. simpl.
    split; [ reflexivity | ].
    rewrite decode_calls_app. simpl. apply app_nil_r.
  - intros offset limit r w' Hl Ho Hq Hnil. unfold GetTradingPairs.
    rewrite Hl, Ho. unfold bind. rewrite ABCIQuery_run, Hq. simpl.
    unfold GetValue. rewrite Hnil. simpl.
    split; [ reflexivity | ].
    rewrite decode_calls_app. simpl. apply app_nil_r.
Qed.

Lemma nil_value_gives_empty_sequence_witness :
  let n := Stub.emptyNode in
  (fst (GetOpenOrders (C := Stub.client n) Stub.addr "BNB_BUSD" (Stub.st0 n)) =
     Returned (Some [], None) /\
   decode_calls
     (trace (snd (GetOpenOrders (C := Stub.client n) Stub.addr "BNB_BUSD"
                    (Stub.st0 n)))) = []) /\
  (fst (GetTradingPairs (C := Stub.client n) 0 10 (Stub.st0 n)) =
     Returned (Some [], None) /\
   decode_calls
     (trace (snd (GetTradingPairs (C := Stub.client n) 0 10 (Stub.st0 n)))) =
     []).
Proof.
  intro n.
  pose proof (nil_value_gives_empty_sequence (C := Stub.client n) (Stub.st0 n))
    as [Ho Hp].
  split.
  - apply (Ho Stub.addr "BNB_BUSD" (mkResult (mkResponse 0 "" None)) 1%nat);
      reflexivity.
  - apply (Hp 0 10 (mkResult (mkResponse 0 "" None)) 1%nat); reflexivity.
Defined.

(** C7 as stated fails for the token list and the fees: the node answers
    success with a zero-length value, both operations hand it to the
    length-prefixed decoder, the decoder refuses it, and the caller gets
    an error (beside an empty token list, and beside a nil fee list). *)
Lemma zero_length_token_list_is_decoded :
  let n := Stub.emptyNode in
  let tokens := ListAllTokens (C := Stub.client n) 0 10 (Stub.st0 n) in
  let fees := GetFee (C := Stub.client n) (Stub.st0 n) in
  Stub.abci n "tokens/list/0/10" None =
    (Some (mkResult (mkResponse 0 "" None)), None) /\
  fst tokens = Returned (Some [], Some (mkError "cannot decode empty bytes")) /\
  decode_calls (trace (snd tokens)) =
    [EvUnmarshal BinaryLengthPrefixed STokens None] /\
  fst fees = Returned (None, Some (mkError "cannot decode empty bytes")) /\
  decode_calls (trace (snd fees)) =
    [EvUnmarshal BinaryLengthPrefixed SFees None].
Proof.
  intros n tokens fees. repeat split.
Qed.



(** *** Balances *)

Section Balances.
Context {P : Payloads} {C : Client}.

(** On a named account the loop of [GetBalances] appends one record per
    coin entry, in order, and touches nothing else. *)
Lemma GetBalances_range_named (coins locked frozen all rest : Coins)
    (bals : list TokenBalance) (s : State) :
  GetBalances_range (Some (NamedAcc (mkNamed coins locked frozen))) all rest
    bals s =
    (Returned
       (bals ++ map (fun coin => specBalance all locked frozen (Denom coin))
                    rest)%list,
     s).
Proof.
  revert bals. induction rest as [| coin rest IH]; intros bals.
  - simpl. now rewrite app_nil_r.
  - simpl. unfold bind. simpl. rewrite IH. rewrite <- app_assoc. reflexivity.
Qed.

Lemma GetBalances_named (addr : AccAddress) (coins locked frozen : Coins)
    (s s' : State) :
  GetAccount addr s =
    (Returned (Some (NamedAcc (mkNamed coins locked frozen)), None), s') ->
  GetBalances addr s =
    (Returned
       (Some (map (fun coin => specBalance coins locked frozen (Denom coin))
                  coins),
        None),
     s').
Proof.
  intros Ha. unfold GetBalances, bind. rewrite Ha. simpl.
  rewrite GetBalances_range_named. reflexivity.
Qed.

(** An absent account stops [GetBalances] at [account.GetCoins()]. *)
Lemma GetBalances_absent_panics (addr : AccAddress) (s s' : State) :
  GetAccount addr s = (Returned (None, None), s') ->
  GetBalances addr s =
    (Panicked "invalid memory address or nil pointer dereference", s').
Proof.
  intros Ha. unfold GetBalances, bind. rewrite Ha. reflexivity.
Qed.

(** A plain account that holds a coin stops [GetBalances] at the type
    assertion of the first iteration. *)
Lemma GetBalances_plain_panics (addr : AccAddress) (coin : Coin)
    (coins : Coins) (s s' : State) :
  GetAccount addr s =
    (Returned (Some (PlainAccount (coin :: coins)), None), s') ->
  GetBalances addr s =
    (Panicked "interface conversion: not types.NamedAccount: missing method",
     s').
Proof.
  intros Ha. unfold GetBalances, bind. rewrite Ha. reflexivity.
Qed.

End Balances.

(** C4, on the code.  The node knows the token and has no account under
    the address: [GetAccount] returns the absent account, [GetBalances]
    panics when it calls [GetCoins] on it and [GetBalance] panics at its
    one-result type assertion.  When the account is a plain one holding
    100 BNB, both panic at the type assertion: the nil test that follows
    the assertion is never reached. *)
Theorem balances_panic_without_named_account :
  let absent := Stub.accountNode None in
  let plain := Stub.accountNode (Some [x00]) in
  fst (GetAccount (C := Stub.client absent) Stub.addr (Stub.st0 absent)) =
    Returned (None, None) /\
  fst (GetBalances (C := Stub.client absent) Stub.addr (Stub.st0 absent)) =
    Panicked "invalid memory address or nil pointer dereference" /\
  fst (GetBalance (C := Stub.client absent) Stub.addr "BNB"
         (Stub.st0 absent)) =
    Panicked "interface conversion: interface is nil, not types.NamedAccount"
  /\
  fst (GetAccount (C := Stub.client plain) Stub.addr (Stub.st0 plain)) =
    Returned (Some (PlainAccount [mkCoin "BNB" 100]), None) /\
  fst (GetBalances (C := Stub.client plain) Stub.addr (Stub.st0 plain)) =
    Panicked "interface conversion: not types.NamedAccount: missing method" /\
  fst (GetBalance (C := Stub.client plain) Stub.addr "BNB" (Stub.st0 plain)) =
    Panicked "interface conversion: not types.NamedAccount: missing method".
Proof.
  intros absent plain. repeat split.
Qed.

(** C5, on the code.  For the named account of the spec's example
    (holdings BNB 100 and BUSD 50, locked BNB 10, nothing frozen)
    [GetBalances] returns the two records the claim describes.  For a
    decoded plain account holding 100 BNB, where the claim asks for one
    record with locked 0 and frozen 0, it returns nothing: the run
    panics. *)
Theorem GetBalances_plain_account_has_no_balances :
  let named := Stub.accountNode (Some [x01]) in
  let plain := Stub.accountNode (Some [x00]) in
  fst (GetBalances (C := Stub.client named) Stub.addr (Stub.st0 named)) =
    Returned (Some [mkTokenBalance "BNB" 100 10 0;
                    mkTokenBalance "BUSD" 50 0 0], None) /\
  fst (GetAccount (C := Stub.client plain) Stub.addr (Stub.st0 plain)) =
    Returned (Some (PlainAccount [mkCoin "BNB" 100]), None) /\
  fst (GetBalances (C := Stub.client plain) Stub.addr (Stub.st0 plain)) <>
    Returned (Some [mkTokenBalance "BNB" 100 0 0], None) /\
  fst (GetBalances (C := Stub.client plain) Stub.addr (Stub.st0 plain)) =
    Panicked "interface conversion: not types.NamedAccount: missing method".
Proof.
  intros named plain.
  split; [ reflexivity | ]. split; [ reflexivity | ].
  split; [ discriminate | reflexivity ].
Qed.


(** *** Errors of the time-lock queries *)

Section TimeLocks.
Context {P : Payloads} {C : Client}.

(** [GetTimelocks] sends the query whatever the encoder said: the encode
    error appears nowhere in the run that follows. *)
Lemma GetTimelocks_ignores_encode_error (addr : AccAddress) (s : State)
    (bz : bytes) (e : error) (r : ResultABCIQuery) (w' : World)
    (records : slice TimeLockRecord) :
  cdcMarshalJSON (QueryTimeLocksParams addr) = (bz, Some e) ->
  rpcABCIQuery "custom/timelock/timelocks" bz (world s) =
    ((Some r, None), w') ->
  cdcUnmarshal JSON STimeLockRecords (Value (Response r)) make0 =
    (records, None) ->
  fst (GetTimelocks addr s) = Returned (records, None).
Proof.
  intros Hm Hq Hu. unfold GetTimelocks, bind.
  rewrite MarshalJSON_run, Hm. simpl.
  change ("custom/" ++ TimeLockMsgRoute ++ "/" ++ "timelocks")%string
    with "custom/timelock/timelocks"%string.
  rewrite ABCIQuery_run. simpl. rewrite Hq. simpl.
  unfold Unmarshal, bind, emit, ret, GetValue. simpl.
  rewrite Hu. reflexivity.
Qed.

(** [GetTimelock] returns at the same place. *)
Lemma GetTimelock_returns_encode_error (addr : AccAddress) (recordID : Z)
    (s : State) (bz : bytes) (e : error) :
  cdcMarshalJSON (QueryTimeLockParams addr recordID) = (bz, Some e) ->
  GetTimelock addr recordID s =
    (Returned (None, Some (Errorf_s "incorrectly formatted request data " e)),
     mkState (world s)
       (trace s ++ [EvMarshalJSON (QueryTimeLockParams addr recordID)])).
Proof.
  intros Hm. unfold GetTimelock, bind. rewrite MarshalJSON_run, Hm.
  reflexivity.
Qed.

End TimeLocks.

(** C9, on the code.  The codec cannot encode the parameters.
    [GetTimelock] passes the failure up, wrapped, and sends nothing.
    [GetTimelocks] drops it: the query goes out with nil data and the
    caller gets the decoded records with a nil error. *)
Theorem GetTimelocks_drops_encode_error :
  let n := Stub.mkNode (fun _ _ => Stub.ok (Some [x01]))
                       (fun _ _ => (None, None)) false in
  cdcMarshalJSON (Client := Stub.client n) (QueryTimeLocksParams Stub.addr) =
    (None, Some (mkError "unsupported type")) /\
  GetTimelock (C := Stub.client n) Stub.addr 3 (Stub.st0 n) =
    (Returned
       (None,
        Some (mkError "incorrectly formatted request data unsupported type")),
     mkState (C := Stub.client n) O
       [EvMarshalJSON (QueryTimeLockParams Stub.addr 3)]) /\
  GetTimelocks (C := Stub.client n) Stub.addr (Stub.st0 n) =
    (Returned (Some [7], None),
     mkState (C := Stub.client n) 1%nat
       [EvMarshalJSON (QueryTimeLocksParams Stub.addr);
        EvABCIQuery "custom/timelock/timelocks" None;
        EvUnmarshal JSON STimeLockRecords (Some [x01])]).
Proof.
  intro n. repeat split.
Qed.


(** *** The token probe of the single balance *)

Section Probe.
Context {P : Payloads} {C : Client}.

(** Every run of [GetAccount] makes exactly one transport call. *)
Lemma GetAccount_transport_calls (addr : AccAddress) (s : State) :
  transport_calls (trace (snd (GetAccount addr s))) =
    (transport_calls (trace s) ++
     [EvABCIQuery ("/account/" ++ AccAddressString addr) None])%list.
Proof.
  unfold GetAccount, bind. rewrite ABCIQuery_run.
  destruct (rpcABCIQuery _ None (world s)) as [[[r |] [e |]] w]; simpl;
    try (rewrite transport_calls_app; reflexivity).
  destruct (negb (IsOK (Response r))); simpl;
    [ rewrite transport_calls_app; reflexivity | ].
  destruct (len (GetValue (Response r)) =? 0); simpl;
    [ rewrite transport_calls_app; reflexivity | ].
  destruct (cdcUnmarshal BinaryBare SAccount (GetValue (Response r)) None)
    as [acc [e |]]; simpl;
    rewrite !transport_calls_app; simpl; now rewrite app_nil_r.
Qed.

(** How the probe ends, by what the transport answered. *)
Lemma existsCC_run (symbol : string) (s : State) :
  existsCC symbol s =
    let q := rpcABCIQuery ("tokens/info/" ++ symbol) None (world s) in
    let s1 :=
      mkState (snd q) (trace s ++ [EvABCIQuery ("tokens/info/" ++ symbol) None])
    in
    match fst q with
    | (_, Some _) => (Returned false, s1)
    | (None, None) =>
        (Panicked "invalid memory address or nil pointer dereference", s1)
    | (Some r, None) =>
        if negb (IsOK (Response r)) then (Returned false, s1)
        else if len (Value (Response r)) =? 0 then (Returned false, s1)
        else
          (Returned
             (match snd (cdcUnmarshal BinaryLengthPrefixed SToken
                           (Value (Response r)) zeroToken) with
              | Some _ => false
              | None => true
              end),
           mkState (snd q)
             ((trace s ++ [EvABCIQuery ("tokens/info/" ++ symbol) None]) ++
              [EvUnmarshal BinaryLengthPrefixed SToken (Value (Response r))]))
    end.
Proof.
  unfold existsCC, bind. rewrite ABCIQuery_run.
  destruct (rpcABCIQuery _ None (world s)) as [[[r |] [e |]] w]; simpl;
    try reflexivity.
  destruct (negb (IsOK (Response r))); simpl; [ reflexivity | ].
  unfold GetValue.
  destruct (len (Value (Response r)) =? 0); simpl; [ reflexivity | ].
  destruct (cdcUnmarshal BinaryLengthPrefixed SToken (Value (Response r))
              zeroToken) as [tok [e |]]; reflexivity.
Qed.

Lemma existsCC_transport_calls (symbol : string) (s : State) :
  transport_calls (trace (snd (existsCC symbol s))) =
    (transport_calls (trace s) ++
     [EvABCIQuery ("tokens/info/" ++ symbol) None])%list.
Proof.
  rewrite existsCC_run. simpl.
  destruct (rpcABCIQuery _ None (world s)) as [[[r |] [e |]] w]; simpl;
    try (rewrite transport_calls_app; reflexivity).
  destruct (negb (IsOK (Response r))); simpl;
    [ rewrite transport_calls_app; reflexivity | ].
  destruct (len (Value (Response r)) =? 0); simpl;
    rewrite !transport_calls_app; simpl; rewrite ?app_nil_r; reflexivity.
Qed.

Lemma GetBalance_probe_false (addr : AccAddress) (symbol : string)
    (s s1 : State) :
  ValidateSymbol symbol = None ->
  existsCC symbol s = (Returned false, s1) ->
  GetBalance addr symbol s =
    (Returned (None, Some (errors_New "symbol not found")), s1).
Proof.
  intros Hv He. unfold GetBalance. rewrite Hv. unfold bind at 1.
  rewrite He. reflexivity.
Qed.

Lemma GetBalance_probe_panic (addr : AccAddress) (symbol : string)
    (s s1 : State) (r : string) :
  ValidateSymbol symbol = None ->
  existsCC symbol s = (Panicked r, s1) ->
  GetBalance addr symbol s = (Panicked r, s1).
Proof.
  intros Hv He. unfold GetBalance. rewrite Hv. unfold bind at 1.
  rewrite He. reflexivity.
Qed.

(** When the probe succeeds the account is queried next, whatever
    follows. *)
Lemma GetBalance_probe_true (addr : AccAddress) (symbol : string)
    (s s1 : State) :
  ValidateSymbol symbol = None ->
  existsCC symbol s = (Returned true, s1) ->
  transport_calls (trace (snd (GetBalance addr symbol s))) =
    (transport_calls (trace s1) ++
     [EvABCIQuery ("/account/" ++ AccAddressString addr) None])%list.
Proof.
  intros Hv He. rewrite <- (GetAccount_transport_calls addr s1).
  unfold GetBalance. rewrite Hv. unfold bind at 1.
  rewrite He. simpl. unfold bind at 1.
  destruct (GetAccount addr s1) as [[[acc [e |]] | r] s2]; try reflexivity.
  unfold bind.
  destruct acc as [[coins | [coins locked frozen]] |]; reflexivity.
Qed.

End Probe.

(** The probe returned [false]: [GetBalance] stops there.  What is left
    is why the probe counts as failed, and the trace of the run. *)
Ltac probe_failed Hv He :=
  rewrite (GetBalance_probe_false _ _ _ _ Hv He); cbn [fst snd trace];
  split; [ intros _ | intros _; split; [ reflexivity | ] ].

(** C10, as the code has it.  For a symbol that passes validation,
    whenever the probe fails [GetBalance] returns the error
    "symbol not found" beside a nil balance, having made the probe's
    transport call and no other; and it ends that way (that error, with
    the probe's call as its only transport call) only when the probe
    failed.  The probe fails for any of four reasons: the transport call
    returned an error, the status code is not success, the value is
    zero-length, or the token does not decode.  The caller gets the same
    error in all four. *)
Theorem GetBalance_not_found_iff_probe_fails {P : Payloads} {C : Client}
    (addr : AccAddress) (symbol : string) (s : State)
    (resp : option ResultABCIQuery) (err : option error) (w' : World) :
  ValidateSymbol symbol = None ->
  rpcABCIQuery ("tokens/info/" ++ symbol) None (world s) = ((resp, err), w') ->
  (fst (GetBalance addr symbol s) =
     Returned (None, Some (errors_New "symbol not found")) /\
   transport_calls (trace (snd (GetBalance addr symbol s))) =
     (transport_calls (trace s) ++
      [EvABCIQuery ("tokens/info/" ++ symbol) None])%list)
  <->
  (err <> None \/
   exists r : ResultABCIQuery,
     resp = Some r /\
     (IsOK (Response r) = false \/
      len (Value (Response r)) = 0 \/
      snd (cdcUnmarshal BinaryLengthPrefixed SToken (Value (Response r))
             zeroToken) <> None)).
Proof.
  intros Hv Hq.
  pose proof (existsCC_run symbol s) as He.
  pose proof (existsCC_transport_calls symbol s) as Ht.
  rewrite Hq in He. cbv zeta in He. cbn [fst snd] in He.
  destruct err as [e |]; [ | destruct resp as [r |] ].
  - (* the transport call returned an error *)
    assert (He' : existsCC symbol s =
                    (Returned false, snd (existsCC symbol s)))
      by (rewrite He; destruct resp; reflexivity).
    probe_failed Hv He'; [ left; discriminate | exact Ht ].
  - destruct (IsOK (Response r)) eqn:Hok; cbn [negb] in He; cbv iota in He;
      [ destruct (len (Value (Response r)) =? 0) eqn:Hlen;
        [ | destruct (snd (cdcUnmarshal BinaryLengthPrefixed SToken
                             (Value (Response r)) zeroToken))
              as [e |] eqn:Hd ]
      | ].
    + (* success, zero-length value *)
      probe_failed Hv He.
      * right. exists r. split; [ reflexivity | ].
        right. left. now apply Z.eqb_eq.
      * rewrite transport_calls_app. reflexivity.
    + (* success, the token does not decode *)
      probe_failed Hv He.
      * right. exists r. split; [ reflexivity | ].
        right. right. rewrite Hd. discriminate.
      * rewrite !transport_calls_app. cbn. now rewrite app_nil_r.
    + (* the probe succeeds: the account query follows *)
      pose proof (GetBalance_probe_true addr symbol s _ Hv He) as Hb.
      rewrite He in Ht. simpl in Ht, Hb. rewrite Ht in Hb.
      split.
      * intros [_ Hc]. rewrite Hb, <- app_assoc in Hc.
        apply app_inv_head in Hc. discriminate Hc.
      * intros [Hn | [r' [Hr [Hbad | [Hbad | Hbad]]]]];
          [ now elim Hn | injection Hr as <- .. ].
        -- congruence.
        -- apply Z.eqb_neq in Hlen. contradiction.
        -- now elim Hbad.
    + (* the status code is not success *)
      probe_failed Hv He.
      * right. exists r. split; [ reflexivity | now left ].
      * rewrite transport_calls_app. reflexivity.
  - (* a nil result beside a nil error: the probe panics *)
    rewrite (GetBalance_probe_panic addr symbol s _ _ Hv He). simpl.
    split.
    + intros [Hc _]. discriminate Hc.
    + intros [Hn | [r' [Hr _]]]; [ now elim Hn | discriminate Hr ].
Qed.

Lemma GetBalance_not_found_iff_probe_fails_witness :
  let n := Stub.constNode (None, Some (mkError "connection refused")) in
  fst (GetBalance (C := Stub.client n) Stub.addr "BNB" (Stub.st0 n)) =
    Returned (None, Some (errors_New "symbol not found")) /\
  transport_calls
    (trace (snd (GetBalance (C := Stub.client n) Stub.addr "BNB"
                   (Stub.st0 n)))) =
    [EvABCIQuery "tokens/info/BNB" None].
Proof.
  intro n.
  apply (GetBalance_not_found_iff_probe_fails (C := Stub.client n) Stub.addr
           "BNB" (Stub.st0 n) None (Some (mkError "connection refused"))
           1%nat eq_refl eq_refl).
  left. discriminate.
Defined.

(** C10 as stated fails: the probe finds the token, the account query
    then fails on the node with the log "symbol not found", [GetAccount]
    relays that log as its error and [GetBalance] returns it.  The caller
    sees the error "symbol not found" although the probe succeeded. *)
Lemma GetBalance_not_found_after_successful_probe :
  let n := Stub.relayNode in
  fst (existsCC (C := Stub.client n) "BNB" (Stub.st0 n)) = Returned true /\
  fst (GetBalance (C := Stub.client n) Stub.addr "BNB" (Stub.st0 n)) =
    Returned (None, Some (errors_New "symbol not found")) /\
  transport_calls
    (trace (snd (GetBalance (C := Stub.client n) Stub.addr "BNB"
                   (Stub.st0 n)))) =
    [EvABCIQuery "tokens/info/BNB" None;
     EvABCIQuery "/account/bnb1alice" None].
Proof.
  intro n. repeat split.
Qed.


(** ** What the operations never do *)

Section Footprints.
Context {P : Payloads} {C : Client}.

Lemma emits_ret {A : Type} (a : A) (ok : Event -> bool) : emits (ret a) ok.
Proof. intros s. exists []. simpl. now rewrite app_nil_r. Qed.

Lemma emits_panic {A : Type} (r : string) (ok : Event -> bool) :
  emits (panic (A := A) r) ok.
Proof. intros s. exists []. simpl. now rewrite app_nil_r. Qed.

Lemma emits_emit (e : Event) (ok : Event -> bool) :
  ok e = true -> emits (emit e) ok.
Proof. intros He s. exists [e]. simpl. now rewrite He. Qed.

Lemma emits_onWorld {A : Type} (f : World -> A * World) (ok : Event -> bool) :
  emits (onWorld f) ok.
Proof.
  intros s. exists []. unfold onWorld. destruct (f (world s)). simpl.
  now rewrite app_nil_r.
Qed.

Lemma emits_bind {A B : Type} (m : M A) (k : A -> M B) (ok : Event -> bool) :
  emits m ok -> (forall a, emits (k a) ok) -> emits (bind m k) ok.
Proof.
  intros Hm Hk s. unfold bind.
  destruct (Hm s) as [e1 [Ht1 Ho1]].
  destruct (m s) as [[a | r] s1]; simpl in Ht1.
  - destruct (Hk a s1) as [e2 [Ht2 Ho2]].
    exists (e1 ++ e2)%list. rewrite Ht2, Ht1, app_assoc. split; [ reflexivity | ].
    rewrite forallb_app, Ho1, Ho2. reflexivity.
  - exists e1. simpl. auto.
Qed.

(** The loop of [GetBalances] calls nobody. *)
Lemma emits_GetBalances_range (account : Account) (coins rest : Coins)
    (bals : list TokenBalance) (ok : Event -> bool) :
  emits (GetBalances_range account coins rest bals) ok.
Proof.
  revert bals. induction rest as [| coin rest IH]; intros bals; simpl.
  - apply emits_ret.
  - apply emits_bind.
    + destruct account as [[c | n] |]; simpl;
        first [ apply emits_ret | apply emits_panic ].
    + intros [n |]; apply IH.
Qed.

End Footprints.

(** One step of a footprint proof, by the shape of the computation. *)
Ltac emits_step :=
  lazymatch goal with
  | |- emits (bind _ _) _ => apply emits_bind; [ | intro ]
  | |- emits (ret _) _ => apply emits_ret
  | |- emits (panic _) _ => apply emits_panic
  | |- emits (emit _) _ => apply emits_emit; reflexivity
  | |- emits (onWorld _) _ => apply emits_onWorld
  | |- emits (GetBalances_range _ _ _ _) _ => apply emits_GetBalances_range
  | |- emits (match ?x with _ => _ end) _ => destruct x
  | |- emits (if ?b then _ else _) _ => destruct b
  end.

Ltac emits_auto :=
  intros;
  unfold TxInfoSearch, ListAllTokens, GetTokenInfo, GetCommitAccount,
    GetBalances, GetBalance, GetFee, GetOpenOrders, GetTradingPairs, GetDepth,
    GetTimelocks, GetTimelock, GetProposals, GetProposal, GetSwapByHash,
    GetSwapByCreator, GetSwapByRecipient, existsCC, GetAccount;
  unfold ABCIQuery, QueryStore, WSEventsTxInfoSearch, MarshalJSON, Unmarshal,
    Println, deref, accountGetCoins, assertNamedAccount, naccGetCoins;
  cbv zeta;
  repeat (cbv beta; emits_step).

(** X1. Of all the operations only [GetProposal] writes to standard
    output: every run of any other one, whatever the collaborators answer
    and whether it returns or panics, adds no print to the trace. *)
Theorem only_GetProposal_prints {P : Payloads} {C : Client} :
  (forall query prove page perPage,
     emits (TxInfoSearch query prove page perPage) silent) /\
  (forall offset limit, emits (ListAllTokens offset limit) silent) /\
  (forall symbol, emits (GetTokenInfo symbol) silent) /\
  (forall addr, emits (GetCommitAccount addr) silent) /\
  (forall addr, emits (GetAccount addr) silent) /\
  (forall addr, emits (GetBalances addr) silent) /\
  (forall addr symbol, emits (GetBalance addr symbol) silent) /\
  emits GetFee silent /\
  (forall addr pair, emits (GetOpenOrders addr pair) silent) /\
  (forall offset limit, emits (GetTradingPairs offset limit) silent) /\
  (forall tradePair level, emits (GetDepth tradePair level) silent) /\
  (forall addr, emits (GetTimelocks addr) silent) /\
  (forall addr recordID, emits (GetTimelock addr recordID) silent) /\
  (forall status numLatest, emits (GetProposals status numLatest) silent) /\
  (forall randomNumberHash, emits (GetSwapByHash randomNumberHash) silent) /\
  (forall creatorAddr swapStatus offset limit,
     emits (GetSwapByCreator creatorAddr swapStatus offset limit) silent) /\
  (forall recipientAddr swapStatus offset limit,
     emits (GetSwapByRecipient recipientAddr swapStatus offset limit) silent).
Proof.
  repeat match goal with |- _ /\ _ => split end; emits_auto.
Qed.

(** X2. Each operation decodes with one discipline only, fixed
    by the operation and not by the response: length-prefixed binary for
    the token, fee, order, pair and order-book queries and for the token
    probe; bare binary for the two account lookups, the balance list and
    the swap-by-hash lookup; JSON for the time-lock, proposal and swap
    listing queries.  [GetBalance] uses the first two and never JSON;
    [TxInfoSearch] decodes nothing. *)
Theorem decoding_discipline_is_fixed {P : Payloads} {C : Client} :
  (forall query prove page perPage,
     emits (TxInfoSearch query prove page perPage) (decodes_with [])) /\
  (forall offset limit,
     emits (ListAllTokens offset limit)
       (decodes_with [BinaryLengthPrefixed])) /\
  (forall symbol,
     emits (GetTokenInfo symbol) (decodes_with [BinaryLengthPrefixed])) /\
  emits GetFee (decodes_with [BinaryLengthPrefixed]) /\
  (forall addr pair,
     emits (GetOpenOrders addr pair) (decodes_with [BinaryLengthPrefixed])) /\
  (forall offset limit,
     emits (GetTradingPairs offset limit)
       (decodes_with [BinaryLengthPrefixed])) /\
  (forall tradePair level,
     emits (GetDepth tradePair level) (decodes_with [BinaryLengthPrefixed])) /\
  (forall symbol, emits (existsCC symbol) (decodes_with [BinaryLengthPrefixed]))
  /\
  (forall addr, emits (GetCommitAccount addr) (decodes_with [BinaryBare])) /\
  (forall addr, emits (GetAccount addr) (decodes_with [BinaryBare])) /\
  (forall addr, emits (GetBalances addr) (decodes_with [BinaryBare])) /\
  (forall randomNumberHash,
     emits (GetSwapByHash randomNumberHash) (decodes_with [BinaryBare])) /\
  (forall addr symbol,
     emits (GetBalance addr symbol)
       (decodes_with [BinaryLengthPrefixed; BinaryBare])) /\
  (forall addr, emits (GetTimelocks addr) (decodes_with [JSON])) /\
  (forall addr recordID,
     emits (GetTimelock addr recordID) (decodes_with [JSON])) /\
  (forall status numLatest,
     emits (GetProposals status numLatest) (decodes_with [JSON])) /\
  (forall proposalId, emits (GetProposal proposalId) (decodes_with [JSON])) /\
  (forall creatorAddr swapStatus offset limit,
     emits (GetSwapByCreator creatorAddr swapStatus offset limit)
       (decodes_with [JSON])) /\
  (forall recipientAddr swapStatus offset limit,
     emits (GetSwapByRecipient recipientAddr swapStatus offset limit)
       (decodes_with [JSON])).
Proof.
  repeat match goal with |- _ /\ _ => split end; emits_auto.
Qed.

(** X3. Each operation reaches the node by one transport
    primitive only: [GetCommitAccount] and [GetSwapByHash] by the store
    read, [TxInfoSearch] by the transaction search, every other operation
    by the path-addressed query. *)
Theorem transport_primitive_is_fixed {P : Payloads} {C : Client} :
  (forall addr, emits (GetCommitAccount addr) (reaches_by is_store)) /\
  (forall randomNumberHash,
     emits (GetSwapByHash randomNumberHash) (reaches_by is_store)) /\
  (forall query prove page perPage,
     emits (TxInfoSearch query prove page perPage) (reaches_by is_search)) /\
  (forall offset limit, emits (ListAllTokens offset limit) (reaches_by is_abci))
  /\
  (forall symbol, emits (GetTokenInfo symbol) (reaches_by is_abci)) /\
  (forall addr, emits (GetAccount addr) (reaches_by is_abci)) /\
  (forall addr, emits (GetBalances addr) (reaches_by is_abci)) /\
  (forall addr symbol, emits (GetBalance addr symbol) (reaches_by is_abci)) /\
  emits GetFee (reaches_by is_abci) /\
  (forall addr pair, emits (GetOpenOrders addr pair) (reaches_by is_abci)) /\
  (forall offset limit,
     emits (GetTradingPairs offset limit) (reaches_by is_abci)) /\
  (forall tradePair level, emits (GetDepth tradePair level) (reaches_by is_abci))
  /\
  (forall addr, emits (GetTimelocks addr) (reaches_by is_abci)) /\
  (forall addr recordID, emits (GetTimelock addr recordID) (reaches_by is_abci))
  /\
  (forall status numLatest,
     emits (GetProposals status numLatest) (reaches_by is_abci)) /\
  (forall proposalId, emits (GetProposal proposalId) (reaches_by is_abci)) /\
  (forall creatorAddr swapStatus offset limit,
     emits (GetSwapByCreator creatorAddr swapStatus offset limit)
       (reaches_by is_abci)) /\
  (forall recipientAddr swapStatus offset limit,
     emits (GetSwapByRecipient recipientAddr swapStatus offset limit)
       (reaches_by is_abci)).
Proof.
  repeat match goal with |- _ /\ _ => split end; emits_auto.
Qed.


(** ** Runs of the operations, case by case *)

(** Runs an operation as far as the equations in the context decide it:
    each call to a collaborator is replaced by its recorded answer. *)
Ltac run_op :=
  repeat first
    [ progress cbv beta iota zeta
    | progress cbn [fst snd world trace negb is_nil]
    | progress unfold bind, ret, panic, deref
    | rewrite ABCIQuery_run
    | rewrite QueryStore_run
    | rewrite MarshalJSON_run
    | rewrite Unmarshal_run
    | match goal with H : _ = _ |- _ => rewrite H end ].

Ltac no_new_decode :=
  rewrite ?decode_calls_app; cbn; rewrite ?app_nil_r; reflexivity.

(** X4. In each of [ListAllTokens], [GetTokenInfo], [GetFee],
    [GetOpenOrders], [GetTradingPairs], [GetDepth], [GetTimelocks],
    [GetProposals], [GetProposal], [GetSwapByCreator],
    [GetSwapByRecipient], [GetAccount] and [GetBalances], with valid,
    encodable parameters, an error from the transport call is returned to
    the caller as it is, beside a nil value; a result the transport
    returned beside the error is ignored and nothing is decoded.
    ([GetTimelocks] sends whatever the encoder produced, so it needs no
    encodable parameters.) *)
Theorem transport_error_is_returned {P : Payloads} {C : Client}
    (s : State) (res : option ResultABCIQuery) (e : error) (w' : World) :
  (forall offset limit,
     ValidateOffset offset = None -> ValidateLimit limit = None ->
     rpcABCIQuery ("tokens/list/" ++ fmt_d offset ++ "/" ++ fmt_d limit) None
       (world s) = ((res, Some e), w') ->
     fst (ListAllTokens offset limit s) = Returned (None, Some e) /\
     decode_calls (trace (snd (ListAllTokens offset limit s))) =
       decode_calls (trace s))
  /\
  (forall symbol,
     ValidateSymbol symbol = None ->
     rpcABCIQuery ("tokens/info/" ++ symbol) None (world s) =
       ((res, Some e), w') ->
     fst (GetTokenInfo symbol s) = Returned (None, Some e) /\
     decode_calls (trace (snd (GetTokenInfo symbol s))) =
       decode_calls (trace s))
  /\
  (rpcABCIQuery "param/fees" None (world s) = ((res, Some e), w') ->
   fst (GetFee s) = Returned (None, Some e) /\
   decode_calls (trace (snd (GetFee s))) = decode_calls (trace s))
  /\
  (forall addr pair,
     ValidatePair pair = None ->
     rpcABCIQuery ("dex/openorders/" ++ pair ++ "/" ++ AccAddressString addr)
       None (world s) = ((res, Some e), w') ->
     fst (GetOpenOrders addr pair s) = Returned (None, Some e) /\
     decode_calls (trace (snd (GetOpenOrders addr pair s))) =
       decode_calls (trace s))
  /\
  (forall offset limit,
     ValidateLimit limit = None -> ValidateOffset offset = None ->
     rpcABCIQuery ("dex/pairs/" ++ fmt_d offset ++ "/" ++ fmt_d limit) None
       (world s) = ((res, Some e), w') ->
     fst (GetTradingPairs offset limit s) = Returned (None, Some e) /\
     decode_calls (trace (snd (GetTradingPairs offset limit s))) =
       decode_calls (trace s))
  /\
  (forall tradePair level,
     ValidatePair tradePair = None -> ValidateDepthLevel level = None ->
     rpcABCIQuery ("dex/orderbook/" ++ tradePair ++ "/" ++ fmt_d level) None
       (world s) = ((res, Some e), w') ->
     fst (GetDepth tradePair level s) = Returned (None, Some e) /\
     decode_calls (trace (snd (GetDepth tradePair level s))) =
       decode_calls (trace s))
  /\
  (forall addr bz merr,
     cdcMarshalJSON (QueryTimeLocksParams addr) = (bz, merr) ->
     rpcABCIQuery "custom/timelock/timelocks" bz (world s) =
       ((res, Some e), w') ->
     fst (GetTimelocks addr s) = Returned (None, Some e) /\
     decode_calls (trace (snd (GetTimelocks addr s))) = decode_calls (trace s))
  /\
  (forall status numLatest bz,
     cdcMarshalJSON
       (QueryProposalsParams
          (if negb (status =? StatusNil) then status else 0)
          (if numLatest >? 0 then numLatest else 0)) = (bz, None) ->
     rpcABCIQuery "custom/gov/proposals" bz (world s) = ((res, Some e), w') ->
     fst (GetProposals status numLatest s) = Returned (None, Some e) /\
     decode_calls (trace (snd (GetProposals status numLatest s))) =
       decode_calls (trace s))
  /\
  (forall proposalId bz,
     cdcMarshalJSON (QueryProposalParams proposalId) = (bz, None) ->
     rpcABCIQuery "custom/gov/proposal" bz (world s) = ((res, Some e), w') ->
     fst (GetProposal proposalId s) = Returned (None, Some e) /\
     decode_calls (trace (snd (GetProposal proposalId s))) =
       decode_calls (trace s))
  /\
  (forall creatorAddr swapStatus offset limit addr bz,
     AccAddressFromBech32 creatorAddr = (addr, None) ->
     cdcMarshalJSON
       (QuerySwapByCreatorParams addr (NewSwapStatusFromString swapStatus)
          limit offset) = (bz, None) ->
     rpcABCIQuery ("custom/" ++ AtomicSwapRoute ++ "/" ++ "swapcreator") bz
       (world s) = ((res, Some e), w') ->
     fst (GetSwapByCreator creatorAddr swapStatus offset limit s) =
       Returned (None, Some e) /\
     decode_calls
       (trace (snd (GetSwapByCreator creatorAddr swapStatus offset limit s))) =
       decode_calls (trace s))
  /\
  (forall recipientAddr swapStatus offset limit addr bz,
     AccAddressFromBech32 recipientAddr = (addr, None) ->
     cdcMarshalJSON
       (QuerySwapByRecipientParams addr (NewSwapStatusFromString swapStatus)
          limit offset) = (bz, None) ->
     rpcABCIQuery ("custom/" ++ AtomicSwapRoute ++ "/" ++ "swaprecipient") bz
       (world s) = ((res, Some e), w') ->
     fst (GetSwapByRecipient recipientAddr swapStatus offset limit s) =
       Returned (None, Some e) /\
     decode_calls
       (trace (snd (GetSwapByRecipient recipientAddr swapStatus offset limit
                      s))) =
       decode_calls (trace s))
  /\
  (forall addr,
     rpcABCIQuery ("/account/" ++ AccAddressString addr) None (world s) =
       ((res, Some e), w') ->
     (fst (GetAccount addr s) = Returned (None, Some e) /\
      decode_calls (trace (snd (GetAccount addr s))) = decode_calls (trace s))
     /\
     (fst (GetBalances addr s) = Returned (None, Some e) /\
      decode_calls (trace (snd (GetBalances addr s))) =
        decode_calls (trace s))).
Proof.
  repeat match goal with |- _ /\ _ => split end; intros.
  - unfold ListAllTokens. run_op. split; [ reflexivity | no_new_decode ].
  - unfold GetTokenInfo. run_op. split; [ reflexivity | no_new_decode ].
  - unfold GetFee.
    change (ParamABCIPrefix ++ "/fees")%string with "param/fees"%string.
    run_op. split; [ reflexivity | no_new_decode ].
  - unfold GetOpenOrders. run_op. split; [ reflexivity | no_new_decode ].
  - unfold GetTradingPairs. run_op. split; [ reflexivity | no_new_decode ].
  - unfold GetDepth. run_op. split; [ reflexivity | no_new_decode ].
  - unfold GetTimelocks.
    change ("custom/" ++ TimeLockMsgRoute ++ "/" ++ "timelocks")%string
      with "custom/timelock/timelocks"%string.
    run_op. destruct merr; run_op; (split; [ reflexivity | no_new_decode ]).
  - unfold GetProposals. run_op. split; [ reflexivity | no_new_decode ].
  - unfold GetProposal, Println, emit. run_op.
    split; [ reflexivity | no_new_decode ].
  - unfold GetSwapByCreator. run_op. split; [ reflexivity | no_new_decode ].
  - unfold GetSwapByRecipient. run_op. split; [ reflexivity | no_new_decode ].
  - unfold GetBalances, bind.
    rewrite (GetAccount_transport_error addr s res e w' H).
    run_op. split; split; try reflexivity; no_new_decode.
Qed.

Lemma transport_error_is_returned_witness :
  let n := Stub.downNode in
  (fst (GetDepth (C := Stub.client n) "BNB_BUSD" 5 (Stub.st0 n)) =
     Returned (None, Some Stub.refused) /\
   decode_calls
     (trace (snd (GetDepth (C := Stub.client n) "BNB_BUSD" 5 (Stub.st0 n)))) =
     []) /\
  (fst (GetProposal (C := Stub.client n) 12 (Stub.st0 n)) =
     Returned (None, Some Stub.refused) /\
   decode_calls
     (trace (snd (GetProposal (C := Stub.client n) 12 (Stub.st0 n)))) = []).
Proof.
  intro n.
  pose proof (transport_error_is_returned (C := Stub.client n) (Stub.st0 n)
                None Stub.refused 1%nat)
    as [_ [_ [_ [_ [_ [Hd [_ [_ [Hp _]]]]]]]]].
  split.
  - apply Hd; reflexivity.
  - apply (Hp 12 (Some (bytes_of_string "{}"))); reflexivity.
Defined.

(** X5. In the two store lookups an error from the store read
    is returned to the caller as it is, beside a nil account or the zero
    swap; a value the store returned beside the error is ignored and
    nothing is decoded. *)
Theorem store_error_is_returned {P : Payloads} {C : Client}
    (s : State) (bz : bytes) (e : error) (w' : World) :
  (forall addr,
     rpcQueryStore (bytes_of_string "account:" ++ addr)%list "acc" (world s) =
       ((bz, Some e), w') ->
     fst (GetCommitAccount addr s) = Returned (None, Some e) /\
     decode_calls (trace (snd (GetCommitAccount addr s))) =
       decode_calls (trace s))
  /\
  (forall randomNumberHash,
     rpcQueryStore (x01 :: randomNumberHash) "atomic_swap" (world s) =
       ((bz, Some e), w') ->
     fst (GetSwapByHash randomNumberHash s) =
       Returned (zeroAtomicSwap, Some e) /\
     decode_calls (trace (snd (GetSwapByHash randomNumberHash s))) =
       decode_calls (trace s)).
Proof.
  split; intros.
  - unfold GetCommitAccount.
    change AccountStoreName with "acc"%string.
    run_op. split; [ reflexivity | no_new_decode ].
  - unfold GetSwapByHash.
    change AtomicSwapStoreName with "atomic_swap"%string.
    change ([x01] ++ randomNumberHash)%list with (x01 :: randomNumberHash).
    run_op. split; [ reflexivity | no_new_decode ].
Qed.

Lemma store_error_is_returned_witness :
  let n := Stub.downNode in
  fst (GetCommitAccount (C := Stub.client n) Stub.addr (Stub.st0 n)) =
    Returned (None, Some Stub.refused) /\
  fst (GetSwapByHash (C := Stub.client n) [x0c] (Stub.st0 n)) =
    Returned (0, Some Stub.refused).
Proof.
  intro n.
  pose proof (store_error_is_returned (C := Stub.client n) (Stub.st0 n)
                None Stub.refused 1%nat) as [Ha Hs].
  split.
  - apply Ha. reflexivity.
  - apply Hs. reflexivity.
Defined.

(** X6. [GetTimelock] does not return the errors of its
    collaborators as they are: a failure to encode the parameters comes
    back as "incorrectly formatted request data " followed by its message,
    with no transport call made; a transport error comes back as
    "error query " followed by its message, with nothing decoded. *)
Theorem GetTimelock_wraps_errors {P : Payloads} {C : Client}
    (addr : AccAddress) (recordID : Z) (s : State) :
  (forall bz e,
     cdcMarshalJSON (QueryTimeLockParams addr recordID) = (bz, Some e) ->
     fst (GetTimelock addr recordID s) =
       Returned
         (None, Some (mkError ("incorrectly formatted request data " ++ Error e)))
     /\
     transport_calls (trace (snd (GetTimelock addr recordID s))) =
       transport_calls (trace s))
  /\
  (forall bz res e w',
     cdcMarshalJSON (QueryTimeLockParams addr recordID) = (bz, None) ->
     rpcABCIQuery "custom/timelock/timelock" bz (world s) =
       ((res, Some e), w') ->
     fst (GetTimelock addr recordID s) =
       Returned (None, Some (mkError ("error query " ++ Error e))) /\
     decode_calls (trace (snd (GetTimelock addr recordID s))) =
       decode_calls (trace s)).
Proof.
  split; intros.
  - rewrite (GetTimelock_returns_encode_error addr recordID s bz e H).
    split; [ reflexivity | ].
    cbn [snd trace]. rewrite transport_calls_app. cbn. apply app_nil_r.
  - unfold GetTimelock.
    change ("custom/" ++ TimeLockMsgRoute ++ "/" ++ "timelock")%string
      with "custom/timelock/timelock"%string.
    run_op. split; [ reflexivity | no_new_decode ].
Qed.

Lemma GetTimelock_wraps_errors_witness :
  let n := Stub.downNode in
  let u := Stub.unencodable None in
  fst (GetTimelock (C := Stub.client u) Stub.addr 3 (Stub.st0 u)) =
    Returned
      (None,
       Some (mkError "incorrectly formatted request data unsupported type")) /\
  fst (GetTimelock (C := Stub.client n) Stub.addr 3 (Stub.st0 n)) =
    Returned (None, Some (mkError "error query connection refused")).
Proof.
  intros n u.
  pose proof (GetTimelock_wraps_errors (C := Stub.client u) Stub.addr 3
                (Stub.st0 u)) as [Hm _].
  pose proof (GetTimelock_wraps_errors (C := Stub.client n) Stub.addr 3
                (Stub.st0 n)) as [_ Hq].
  split.
  - apply (Hm None (mkError "unsupported type")). reflexivity.
  - apply (Hq (Some (bytes_of_string "{}")) None Stub.refused 1%nat);
      reflexivity.
Defined.

(** X7. When the codec cannot encode the parameters,
    [GetProposals], [GetProposal], [GetSwapByCreator] and
    [GetSwapByRecipient] return the codec's error as it is beside a nil
    value, and the run ends there: no transport call, and [GetProposal]
    prints nothing. *)
Theorem encode_failure_stops_before_transport {P : Payloads} {C : Client}
    (s : State) (bz : bytes) (e : error) :
  (forall status numLatest,
     cdcMarshalJSON
       (QueryProposalsParams
          (if negb (status =? StatusNil) then status else 0)
          (if numLatest >? 0 then numLatest else 0)) = (bz, Some e) ->
     fst (GetProposals status numLatest s) = Returned (None, Some e) /\
     transport_calls (trace (snd (GetProposals status numLatest s))) =
       transport_calls (trace s))
  /\
  (forall proposalId,
     cdcMarshalJSON (QueryProposalParams proposalId) = (bz, Some e) ->
     fst (GetProposal proposalId s) = Returned (None, Some e) /\
     transport_calls (trace (snd (GetProposal proposalId s))) =
       transport_calls (trace s) /\
     filter is_println (trace (snd (GetProposal proposalId s))) =
       filter is_println (trace s))
  /\
  (forall creatorAddr swapStatus offset limit addr,
     AccAddressFromBech32 creatorAddr = (addr, None) ->
     cdcMarshalJSON
       (QuerySwapByCreatorParams addr (NewSwapStatusFromString swapStatus)
          limit offset) = (bz, Some e) ->
     fst (GetSwapByCreator creatorAddr swapStatus offset limit s) =
       Returned (None, Some e) /\
     transport_calls
       (trace (snd (GetSwapByCreator creatorAddr swapStatus offset limit s))) =
       transport_calls (trace s))
  /\
  (forall recipientAddr swapStatus offset limit addr,
     AccAddressFromBech32 recipientAddr = (addr, None) ->
     cdcMarshalJSON
       (QuerySwapByRecipientParams addr (NewSwapStatusFromString swapStatus)
          limit offset) = (bz, Some e) ->
     fst (GetSwapByRecipient recipientAddr swapStatus offset limit s) =
       Returned (None, Some e) /\
     transport_calls
       (trace (snd (GetSwapByRecipient recipientAddr swapStatus offset limit
                      s))) =
       transport_calls (trace s)).
Proof.
  assert (Ht : forall (t : list Event) (p : QueryParams),
             transport_calls (t ++ [EvMarshalJSON p]) = transport_calls t).
  { intros t p. rewrite transport_calls_app. cbn. apply app_nil_r. }
  repeat match goal with |- _ /\ _ => split end; intros.
  - unfold GetProposals. run_op. split; [ reflexivity | apply Ht ].
  - unfold GetProposal. run_op.
    split; [ reflexivity | split; [ apply Ht | ] ].
    rewrite filter_app. cbn. apply app_nil_r.
  - unfold GetSwapByCreator. run_op. split; [ reflexivity | apply Ht ].
  - unfold GetSwapByRecipient. run_op. split; [ reflexivity | apply Ht ].
Qed.

Lemma encode_failure_stops_before_transport_witness :
  let u := Stub.unencodable (Some [x01]) in
  fst (GetProposal (C := Stub.client u) 12 (Stub.st0 u)) =
    Returned (None, Some (mkError "unsupported type")) /\
  transport_calls (trace (snd (GetProposal (C := Stub.client u) 12
                                 (Stub.st0 u)))) = [] /\
  filter is_println (trace (snd (GetProposal (C := Stub.client u) 12
                                   (Stub.st0 u)))) = [].
Proof.
  intro u.
  pose proof (encode_failure_stops_before_transport (C := Stub.client u)
                (Stub.st0 u) None (mkError "unsupported type"))
    as [_ [Hp _]].
  apply Hp. reflexivity.
Defined.


(** ** One round trip *)

(** Follows a run along every path the code can take: the answers of the
    collaborators are split into their cases. *)
Ltac split_answer :=
  match goal with
  | |- context [rpcABCIQuery ?p ?d ?w] =>
      destruct (rpcABCIQuery p d w) as [[? ?] ?]
  | |- context [rpcQueryStore ?k ?n ?w] =>
      destruct (rpcQueryStore k n w) as [[? ?] ?]
  | |- context [rpcTxInfoSearch ?q ?p ?a ?b ?w] =>
      destruct (rpcTxInfoSearch q p a b w) as [[? ?] ?]
  | |- context [cdcUnmarshal ?d ?sh ?bz ?ptr] =>
      destruct (cdcUnmarshal d sh bz ptr) as [? ?]
  | |- context [cdcMarshalJSON ?p] =>
      destruct (cdcMarshalJSON p) as [? ?]
  | |- context [match ?x with _ => _ end] =>
      lazymatch x with
      | context [match _ with _ => _ end] => fail
      | _ => destruct x
      end
  | |- context [if ?b then _ else _] => destruct b
  end.

Ltac all_paths :=
  repeat first
    [ progress cbv beta iota zeta
    | progress cbn [fst snd world trace negb is_nil]
    | progress unfold bind, ret, panic, deref, emit, onWorld
    | rewrite ABCIQuery_run
    | rewrite QueryStore_run
    | rewrite MarshalJSON_run
    | rewrite Unmarshal_run
    | match goal with H : _ = _ |- _ => rewrite H end
    | split_answer ].

Ltac same_calls :=
  rewrite ?transport_calls_app;
  cbn [transport_calls filter is_transport app];
  rewrite ?app_nil_r; reflexivity.

(** X8. With valid, encodable parameters each operation other than
    [GetBalance] makes exactly one transport call, on every path the run
    can take (decode failure and panic included).  The path-addressed
    queries send the query at the path of their template, with nil data
    for the plain queries and the encoded parameters for the custom
    routes; [GetTimelocks] sends whatever the encoder left, even after an
    encode error.  [GetCommitAccount] and [GetSwapByHash] make one store
    read, [TxInfoSearch] one search call with its own arguments.  Nothing
    is sent twice. *)
Theorem one_round_trip_per_operation {P : Payloads} {C : Client} (s : State) :
  (forall query prove page perPage,
     ValidateTxSearchQueryStr query = None ->
     transport_calls (trace (snd (TxInfoSearch query prove page perPage s))) =
       (transport_calls (trace s) ++
        [EvTxInfoSearch query prove page perPage])%list)
  /\
  (forall offset limit,
     ValidateOffset offset = None -> ValidateLimit limit = None ->
     transport_calls (trace (snd (ListAllTokens offset limit s))) =
       (transport_calls (trace s) ++
        [EvABCIQuery ("tokens/list/" ++ fmt_d offset ++ "/" ++ fmt_d limit)
           None])%list)
  /\
  (forall symbol,
     ValidateSymbol symbol = None ->
     transport_calls (trace (snd (GetTokenInfo symbol s))) =
       (transport_calls (trace s) ++
        [EvABCIQuery ("tokens/info/" ++ symbol) None])%list)
  /\
  (forall addr,
     transport_calls (trace (snd (GetBalances addr s))) =
       (transport_calls (trace s) ++
        [EvABCIQuery ("/account/" ++ AccAddressString addr) None])%list)
  /\
  (transport_calls (trace (snd (GetFee s))) =
     (transport_calls (trace s) ++ [EvABCIQuery "param/fees" None])%list)
  /\
  (forall addr pair,
     ValidatePair pair = None ->
     transport_calls (trace (snd (GetOpenOrders addr pair s))) =
       (transport_calls (trace s) ++
        [EvABCIQuery
           ("dex/openorders/" ++ pair ++ "/" ++ AccAddressString addr)
           None])%list)
  /\
  (forall offset limit,
     ValidateLimit limit = None -> ValidateOffset offset = None ->
     transport_calls (trace (snd (GetTradingPairs offset limit s))) =
       (transport_calls (trace s) ++
        [EvABCIQuery ("dex/pairs/" ++ fmt_d offset ++ "/" ++ fmt_d limit)
           None])%list)
  /\
  (forall tradePair level,
     ValidatePair tradePair = None -> ValidateDepthLevel level = None ->
     transport_calls (trace (snd (GetDepth tradePair level s))) =
       (transport_calls (trace s) ++
        [EvABCIQuery ("dex/orderbook/" ++ tradePair ++ "/" ++ fmt_d level)
           None])%list)
  /\
  (forall addr,
     transport_calls (trace (snd (GetTimelocks addr s))) =
       (transport_calls (trace s) ++
        [EvABCIQuery "custom/timelock/timelocks"
           (fst (cdcMarshalJSON (QueryTimeLocksParams addr)))])%list)
  /\
  (forall addr recordID bz,
     cdcMarshalJSON (QueryTimeLockParams addr recordID) = (bz, None) ->
     transport_calls (trace (snd (GetTimelock addr recordID s))) =
       (transport_calls (trace s) ++
        [EvABCIQuery "custom/timelock/timelock" bz])%list)
  /\
  (forall status numLatest bz,
     cdcMarshalJSON
       (QueryProposalsParams
          (if negb (status =? StatusNil) then status else 0)
          (if numLatest >? 0 then numLatest else 0)) = (bz, None) ->
     transport_calls (trace (snd (GetProposals status numLatest s))) =
       (transport_calls (trace s) ++
        [EvABCIQuery "custom/gov/proposals" bz])%list)
  /\
  (forall proposalId bz,
     cdcMarshalJSON (QueryProposalParams proposalId) = (bz, None) ->
     transport_calls (trace (snd (GetProposal proposalId s))) =
       (transport_calls (trace s) ++
        [EvABCIQuery "custom/gov/proposal" bz])%list)
  /\
  (forall creatorAddr swapStatus offset limit addr bz,
     AccAddressFromBech32 creatorAddr = (addr, None) ->
     cdcMarshalJSON
       (QuerySwapByCreatorParams addr (NewSwapStatusFromString swapStatus)
          limit offset) = (bz, None) ->
     transport_calls
       (trace (snd (GetSwapByCreator creatorAddr swapStatus offset limit s))) =
       (transport_calls (trace s) ++
        [EvABCIQuery ("custom/" ++ AtomicSwapRoute ++ "/" ++ "swapcreator")
           bz])%list)
  /\
  (forall recipientAddr swapStatus offset limit addr bz,
     AccAddressFromBech32 recipientAddr = (addr, None) ->
     cdcMarshalJSON
       (QuerySwapByRecipientParams addr (NewSwapStatusFromString swapStatus)
          limit offset) = (bz, None) ->
     transport_calls
       (trace (snd (GetSwapByRecipient recipientAddr swapStatus offset limit
                      s))) =
       (transport_calls (trace s) ++
        [EvABCIQuery ("custom/" ++ AtomicSwapRoute ++ "/" ++ "swaprecipient")
           bz])%list)
  /\
  (forall addr,
     transport_calls (trace (snd (GetAccount addr s))) =
       (transport_calls (trace s) ++
        [EvABCIQuery ("/account/" ++ AccAddressString addr) None])%list)
  /\
  (forall addr,
     transport_calls (trace (snd (GetCommitAccount addr s))) =
       (transport_calls (trace s) ++
        [EvQueryStore (bytes_of_string "account:" ++ addr) "acc"])%list)
  /\
  (forall randomNumberHash,
     transport_calls (trace (snd (GetSwapByHash randomNumberHash s))) =
       (transport_calls (trace s) ++
        [EvQueryStore (x01 :: randomNumberHash) "atomic_swap"])%list).
Proof.
  repeat match goal with |- _ /\ _ => split end; intros.
  - unfold TxInfoSearch, WSEventsTxInfoSearch. all_paths; same_calls.
  - unfold ListAllTokens. all_paths; same_calls.
  - unfold GetTokenInfo. all_paths; same_calls.
  - pose proof (GetAccount_transport_calls addr s) as Ha.
    unfold GetBalances, bind.
    destruct (GetAccount addr s) as [[[acc [e |]] | r] s1];
      cbn [snd] in Ha |- *; try exact Ha.
    destruct acc as [impl |]; cbn [accountGetCoins]; [ | exact Ha ].
    destruct (emits_GetBalances_range (Some impl) (implGetCoins impl)
                (implGetCoins impl) [] (fun _ => false) s1)
      as [[| ev evs] [Ht Ho]]; [ | discriminate Ho ].
    rewrite app_nil_r in Ht. unfold ret.
    destruct (GetBalances_range _ _ _ _ s1) as [[bals | r] s2];
      cbn [snd] in Ht |- *; rewrite Ht; exact Ha.
  - unfold GetFee.
    change (ParamABCIPrefix ++ "/fees")%string with "param/fees"%string.
    all_paths; same_calls.
  - unfold GetOpenOrders. all_paths; same_calls.
  - unfold GetTradingPairs. all_paths; same_calls.
  - unfold GetDepth. all_paths; same_calls.
  - unfold GetTimelocks.
    change ("custom/" ++ TimeLockMsgRoute ++ "/" ++ "timelocks")%string
      with "custom/timelock/timelocks"%string.
    destruct (cdcMarshalJSON (QueryTimeLocksParams addr)) as [bz merr] eqn:Hm.
    all_paths; same_calls.
  - unfold GetTimelock.
    change ("custom/" ++ TimeLockMsgRoute ++ "/" ++ "timelock")%string
      with "custom/timelock/timelock"%string.
    all_paths; same_calls.
  - unfold GetProposals. all_paths; same_calls.
  - unfold GetProposal, Println. all_paths; same_calls.
  - unfold GetSwapByCreator. all_paths; same_calls.
  - unfold GetSwapByRecipient. all_paths; same_calls.
  - apply GetAccount_transport_calls.
  - unfold GetCommitAccount.
    change AccountStoreName with "acc"%string.
    all_paths; same_calls.
  - unfold GetSwapByHash.
    change AtomicSwapStoreName with "atomic_swap"%string.
    change ([x01] ++ randomNumberHash)%list with (x01 :: randomNumberHash).
    all_paths; same_calls.
Qed.

Lemma one_round_trip_per_operation_witness :
  let n := Stub.answering (Some [x01]) in
  transport_calls
    (trace (snd (GetDepth (C := Stub.client n) "BNB_BUSD" 5 (Stub.st0 n)))) =
    [EvABCIQuery "dex/orderbook/BNB_BUSD/5" None] /\
  transport_calls
    (trace (snd (GetSwapByRecipient (C := Stub.client n) "bnb1bob" "Open" 0 25
                   (Stub.st0 n)))) =
    [EvABCIQuery "custom/atomicSwap/swaprecipient"
       (Some (bytes_of_string "{}"))].
Proof.
  intro n.
  pose proof (one_round_trip_per_operation (C := Stub.client n) (Stub.st0 n))
    as [_ [_ [_ [_ [_ [_ [_ [Hd [_ [_ [_ [_ [_ [Hr _]]]]]]]]]]]]]].
  split.
  - apply (Hd "BNB_BUSD" 5); reflexivity.
  - apply (Hr "bnb1bob" "Open" 0 25 (list_byte_of_string "bnb1bob")
             (Some (bytes_of_string "{}"))); reflexivity.
Defined.


(** ** What the caller gets from the decoder *)

(** X9. When the transport answers with a result and no
    error, [ListAllTokens], [GetTokenInfo], [GetFee], [GetTradingPairs]
    (value not nil), [GetProposals] and [GetProposal] read neither the
    status code nor the log: the value goes to the decoder and the caller
    gets the pair the decoder produced, its target as it left it beside
    its error, also when the decoder fails.  The targets start as the
    empty list (tokens, pairs, proposals), the zero token, a nil fee list
    and a nil proposal. *)
Theorem decoder_outcome_is_returned_whole {P : Payloads} {C : Client}
    (s : State) (r : ResultABCIQuery) (w' : World) :
  (forall offset limit,
     ValidateOffset offset = None -> ValidateLimit limit = None ->
     rpcABCIQuery ("tokens/list/" ++ fmt_d offset ++ "/" ++ fmt_d limit) None
       (world s) = ((Some r, None), w') ->
     fst (ListAllTokens offset limit s) =
       Returned (cdcUnmarshal BinaryLengthPrefixed STokens (Value (Response r))
                   (Some [])))
  /\
  (forall symbol,
     ValidateSymbol symbol = None ->
     rpcABCIQuery ("tokens/info/" ++ symbol) None (world s) =
       ((Some r, None), w') ->
     fst (GetTokenInfo symbol s) =
       Returned
         (Some (fst (cdcUnmarshal BinaryLengthPrefixed SToken
                       (Value (Response r)) zeroToken)),
          snd (cdcUnmarshal BinaryLengthPrefixed SToken
                 (Value (Response r)) zeroToken)))
  /\
  (rpcABCIQuery "param/fees" None (world s) = ((Some r, None), w') ->
   fst (GetFee s) =
     Returned (cdcUnmarshal BinaryLengthPrefixed SFees (Value (Response r))
                 None))
  /\
  (forall offset limit,
     ValidateLimit limit = None -> ValidateOffset offset = None ->
     rpcABCIQuery ("dex/pairs/" ++ fmt_d offset ++ "/" ++ fmt_d limit) None
       (world s) = ((Some r, None), w') ->
     Value (Response r) <> None ->
     fst (GetTradingPairs offset limit s) =
       Returned (cdcUnmarshal BinaryLengthPrefixed STradingPairs
                   (Value (Response r)) (Some [])))
  /\
  (forall status numLatest bz,
     cdcMarshalJSON
       (QueryProposalsParams
          (if negb (status =? StatusNil) then status else 0)
          (if numLatest >? 0 then numLatest else 0)) = (bz, None) ->
     rpcABCIQuery "custom/gov/proposals" bz (world s) = ((Some r, None), w') ->
     fst (GetProposals status numLatest s) =
       Returned (cdcUnmarshal JSON SProposals (Value (Response r)) (Some [])))
  /\
  (forall proposalId bz,
     cdcMarshalJSON (QueryProposalParams proposalId) = (bz, None) ->
     rpcABCIQuery "custom/gov/proposal" bz (world s) = ((Some r, None), w') ->
     fst (GetProposal proposalId s) =
       Returned (cdcUnmarshal JSON SProposal (Value (Response r)) None)).
Proof.
  repeat match goal with |- _ /\ _ => split end; intros.
  - unfold ListAllTokens, GetValue, make0. run_op.
    now destruct (cdcUnmarshal _ _ _ _).
  - unfold GetTokenInfo, GetValue. run_op.
    now destruct (cdcUnmarshal _ _ _ _).
  - unfold GetFee, GetValue.
    change (ParamABCIPrefix ++ "/fees")%string with "param/fees"%string.
    run_op. now destruct (cdcUnmarshal _ _ _ _).
  - unfold GetTradingPairs, GetValue, make0. run_op.
    destruct (Value (Response r)) as [v |]; [ | contradiction ].
    run_op. now destruct (cdcUnmarshal _ _ _ _).
  - unfold GetProposals, GetValue, make0. run_op.
    now destruct (cdcUnmarshal _ _ _ _).
  - unfold GetProposal, Println, emit, GetValue. run_op.
    now destruct (cdcUnmarshal _ _ _ _).
Qed.

Lemma decoder_outcome_is_returned_whole_witness :
  let n := Stub.answering (Some []) in
  fst (GetTokenInfo (C := Stub.client n) "BNB" (Stub.st0 n)) =
    Returned (Some "", Some (mkError "cannot decode empty bytes")) /\
  fst (GetTradingPairs (C := Stub.client n) 0 10 (Stub.st0 n)) =
    Returned (Some [], Some (mkError "cannot decode empty bytes")).
Proof.
  intro n.
  pose proof (decoder_outcome_is_returned_whole (C := Stub.client n)
                (Stub.st0 n) (mkResult (mkResponse 0 "" (Some []))) 1%nat)
    as [_ [Ht [_ [Hp _]]]].
  split.
  - apply (Ht "BNB"); reflexivity.
  - apply (Hp 0 10); try reflexivity. discriminate.
Defined.

(** X10. When the transport answers with a result and no
    error, [GetOpenOrders] (value not nil), [GetDepth], [GetTimelocks],
    [GetTimelock] (status code other than the sentinel),
    [GetSwapByCreator] and [GetSwapByRecipient] hand the value to the
    decoder whatever the status code and the log are, and keep what it
    decoded only when it succeeds: on a decode error the caller gets nil
    beside that error, never the decoder's target. *)
Theorem decode_error_gives_nil {P : Payloads} {C : Client}
    (s : State) (r : ResultABCIQuery) (w' : World) :
  (forall addr pair,
     ValidatePair pair = None ->
     rpcABCIQuery ("dex/openorders/" ++ pair ++ "/" ++ AccAddressString addr)
       None (world s) = ((Some r, None), w') ->
     Value (Response r) <> None ->
     fst (GetOpenOrders addr pair s) =
       Returned
         (match cdcUnmarshal BinaryLengthPrefixed SOpenOrders
                  (Value (Response r)) (Some []) with
          | (_, Some e) => (None, Some e)
          | (orders, None) => (orders, None)
          end))
  /\
  (forall tradePair level,
     ValidatePair tradePair = None -> ValidateDepthLevel level = None ->
     rpcABCIQuery ("dex/orderbook/" ++ tradePair ++ "/" ++ fmt_d level) None
       (world s) = ((Some r, None), w') ->
     fst (GetDepth tradePair level s) =
       Returned
         (match cdcUnmarshal BinaryLengthPrefixed SOrderBook
                  (Value (Response r)) zeroOrderBook with
          | (_, Some e) => (None, Some e)
          | (ob, None) => (Some ob, None)
          end))
  /\
  (forall addr bz merr,
     cdcMarshalJSON (QueryTimeLocksParams addr) = (bz, merr) ->
     rpcABCIQuery "custom/timelock/timelocks" bz (world s) =
       ((Some r, None), w') ->
     fst (GetTimelocks addr s) =
       Returned
         (match cdcUnmarshal JSON STimeLockRecords (Value (Response r))
                  (Some []) with
          | (_, Some e) => (None, Some e)
          | (records, None) => (records, None)
          end))
  /\
  (forall addr recordID bz,
     cdcMarshalJSON (QueryTimeLockParams addr recordID) = (bz, None) ->
     rpcABCIQuery "custom/timelock/timelock" bz (world s) =
       ((Some r, None), w') ->
     Code (Response r) <> TimeLockrcNotFoundErrorCode ->
     fst (GetTimelock addr recordID s) =
       Returned
         (match cdcUnmarshal JSON STimeLockRecord (Value (Response r))
                  zeroTimeLockRecord with
          | (_, Some e) => (None, Some e)
          | (record, None) => (Some record, None)
          end))
  /\
  (forall creatorAddr swapStatus offset limit addr bz,
     AccAddressFromBech32 creatorAddr = (addr, None) ->
     cdcMarshalJSON
       (QuerySwapByCreatorParams addr (NewSwapStatusFromString swapStatus)
          limit offset) = (bz, None) ->
     rpcABCIQuery ("custom/" ++ AtomicSwapRoute ++ "/" ++ "swapcreator") bz
       (world s) = ((Some r, None), w') ->
     fst (GetSwapByCreator creatorAddr swapStatus offset limit s) =
       Returned
         (match cdcUnmarshal JSON SAtomicSwaps (Value (Response r)) None with
          | (_, Some e) => (None, Some e)
          | (swaps, None) => (swaps, None)
          end))
  /\
  (forall recipientAddr swapStatus offset limit addr bz,
     AccAddressFromBech32 recipientAddr = (addr, None) ->
     cdcMarshalJSON
       (QuerySwapByRecipientParams addr (NewSwapStatusFromString swapStatus)
          limit offset) = (bz, None) ->
     rpcABCIQuery ("custom/" ++ AtomicSwapRoute ++ "/" ++ "swaprecipient") bz
       (world s) = ((Some r, None), w') ->
     fst (GetSwapByRecipient recipientAddr swapStatus offset limit s) =
       Returned
         (match cdcUnmarshal JSON SAtomicSwaps (Value (Response r)) None with
          | (_, Some e) => (None, Some e)
          | (swaps, None) => (swaps, None)
          end)).
Proof.
  repeat match goal with |- _ /\ _ => split end; intros.
  - unfold GetOpenOrders, GetValue, make0. run_op.
    destruct (Value (Response r)) as [v |]; [ | contradiction ].
    run_op. now destruct (cdcUnmarshal _ _ _ _) as [? [? |]].
  - unfold GetDepth, GetValue. run_op.
    now destruct (cdcUnmarshal _ _ _ _) as [? [? |]].
  - unfold GetTimelocks, GetValue, make0.
    change ("custom/" ++ TimeLockMsgRoute ++ "/" ++ "timelocks")%string
      with "custom/timelock/timelocks"%string.
    run_op. destruct merr; run_op;
      now destruct (cdcUnmarshal _ _ _ _) as [? [? |]].
  - unfold GetTimelock, GetValue.
    change ("custom/" ++ TimeLockMsgRoute ++ "/" ++ "timelock")%string
      with "custom/timelock/timelock"%string.
    apply Z.eqb_neq in H1. run_op.
    now destruct (cdcUnmarshal _ _ _ _) as [? [? |]].
  - unfold GetSwapByCreator, GetValue. run_op.
    now destruct (cdcUnmarshal _ _ _ _) as [? [? |]].
  - unfold GetSwapByRecipient, GetValue. run_op.
    now destruct (cdcUnmarshal _ _ _ _) as [? [? |]].
Qed.

Lemma decode_error_gives_nil_witness :
  let n := Stub.answering (Some []) in
  let f := Stub.constNode (Stub.failed 3 "bad pair" (Some [x01])) in
  fst (GetOpenOrders (C := Stub.client n) Stub.addr "BNB_BUSD" (Stub.st0 n)) =
    Returned (None, Some (mkError "cannot decode empty bytes")) /\
  fst (GetDepth (C := Stub.client f) "BNB_BUSD" 5 (Stub.st0 f)) =
    Returned (Some [1; 2; 3; 4], None).
Proof.
  intros n f.
  pose proof (decode_error_gives_nil (C := Stub.client n) (Stub.st0 n)
                (mkResult (mkResponse 0 "" (Some []))) 1%nat) as [Ho _].
  pose proof (decode_error_gives_nil (C := Stub.client f) (Stub.st0 f)
                (mkResult (mkResponse 3 "bad pair" (Some [x01]))) 1%nat)
    as [_ [Hd _]].
  split.
  - apply (Ho Stub.addr "BNB_BUSD"); try reflexivity. discriminate.
  - apply (Hd "BNB_BUSD" 5); reflexivity.
Defined.


(** ** Panics *)

Ltac settle_panic :=
  split;
  [ intros [? Hp]; first [ discriminate Hp | split; reflexivity ]
  | intros [Hr He];
    first [ discriminate Hr | discriminate He | eexists; reflexivity ] ].

(** X11. With valid, encodable parameters, each of these
    path-addressed queries panics exactly when the transport returns a nil
    result together with a nil error: the result is dereferenced without a
    test.  In every other case, decode failures included, the run
    returns. *)
Theorem path_queries_panic_iff_nil_result {P : Payloads} {C : Client}
    (s : State) (res : option ResultABCIQuery) (err : option error)
    (w' : World) :
  (forall offset limit,
     ValidateOffset offset = None -> ValidateLimit limit = None ->
     rpcABCIQuery ("tokens/list/" ++ fmt_d offset ++ "/" ++ fmt_d limit) None
       (world s) = ((res, err), w') ->
     (exists reason, fst (ListAllTokens offset limit s) = Panicked reason) <->
     res = None /\ err = None)
  /\
  (forall symbol,
     ValidateSymbol symbol = None ->
     rpcABCIQuery ("tokens/info/" ++ symbol) None (world s) =
       ((res, err), w') ->
     (exists reason, fst (GetTokenInfo symbol s) = Panicked reason) <->
     res = None /\ err = None)
  /\
  (forall addr,
     rpcABCIQuery ("/account/" ++ AccAddressString addr) None (world s) =
       ((res, err), w') ->
     (exists reason, fst (GetAccount addr s) = Panicked reason) <->
     res = None /\ err = None)
  /\
  (rpcABCIQuery "param/fees" None (world s) = ((res, err), w') ->
   (exists reason, fst (GetFee s) = Panicked reason) <->
   res = None /\ err = None)
  /\
  (forall addr pair,
     ValidatePair pair = None ->
     rpcABCIQuery ("dex/openorders/" ++ pair ++ "/" ++ AccAddressString addr)
       None (world s) = ((res, err), w') ->
     (exists reason, fst (GetOpenOrders addr pair s) = Panicked reason) <->
     res = None /\ err = None)
  /\
  (forall offset limit,
     ValidateLimit limit = None -> ValidateOffset offset = None ->
     rpcABCIQuery ("dex/pairs/" ++ fmt_d offset ++ "/" ++ fmt_d limit) None
       (world s) = ((res, err), w') ->
     (exists reason, fst (GetTradingPairs offset limit s) = Panicked reason) <->
     res = None /\ err = None)
  /\
  (forall tradePair level,
     ValidatePair tradePair = None -> ValidateDepthLevel level = None ->
     rpcABCIQuery ("dex/orderbook/" ++ tradePair ++ "/" ++ fmt_d level) None
       (world s) = ((res, err), w') ->
     (exists reason, fst (GetDepth tradePair level s) = Panicked reason) <->
     res = None /\ err = None)
  /\
  (forall addr recordID bz,
     cdcMarshalJSON (QueryTimeLockParams addr recordID) = (bz, None) ->
     rpcABCIQuery "custom/timelock/timelock" bz (world s) = ((res, err), w') ->
     (exists reason, fst (GetTimelock addr recordID s) = Panicked reason) <->
     res = None /\ err = None)
  /\
  (forall status numLatest bz,
     cdcMarshalJSON
       (QueryProposalsParams
          (if negb (status =? StatusNil) then status else 0)
          (if numLatest >? 0 then numLatest else 0)) = (bz, None) ->
     rpcABCIQuery "custom/gov/proposals" bz (world s) = ((res, err), w') ->
     (exists reason, fst (GetProposals status numLatest s) = Panicked reason)
     <-> res = None /\ err = None)
  /\
  (forall proposalId bz,
     cdcMarshalJSON (QueryProposalParams proposalId) = (bz, None) ->
     rpcABCIQuery "custom/gov/proposal" bz (world s) = ((res, err), w') ->
     (exists reason, fst (GetProposal proposalId s) = Panicked reason) <->
     res = None /\ err = None)
  /\
  (forall creatorAddr swapStatus offset limit addr bz,
     AccAddressFromBech32 creatorAddr = (addr, None) ->
     cdcMarshalJSON
       (QuerySwapByCreatorParams addr (NewSwapStatusFromString swapStatus)
          limit offset) = (bz, None) ->
     rpcABCIQuery ("custom/" ++ AtomicSwapRoute ++ "/" ++ "swapcreator") bz
       (world s) = ((res, err), w') ->
     (exists reason,
        fst (GetSwapByCreator creatorAddr swapStatus offset limit s) =
          Panicked reason) <->
     res = None /\ err = None)
  /\
  (forall recipientAddr swapStatus offset limit addr bz,
     AccAddressFromBech32 recipientAddr = (addr, None) ->
     cdcMarshalJSON
       (QuerySwapByRecipientParams addr (NewSwapStatusFromString swapStatus)
          limit offset) = (bz, None) ->
     rpcABCIQuery ("custom/" ++ AtomicSwapRoute ++ "/" ++ "swaprecipient") bz
       (world s) = ((res, err), w') ->
     (exists reason,
        fst (GetSwapByRecipient recipientAddr swapStatus offset limit s) =
          Panicked reason) <->
     res = None /\ err = None).
Proof.
  repeat match goal with |- _ /\ _ => split end; intros.
  - unfold ListAllTokens. all_paths; settle_panic.
  - unfold GetTokenInfo. all_paths; settle_panic.
  - unfold GetAccount. all_paths; settle_panic.
  - unfold GetFee.
    change (ParamABCIPrefix ++ "/fees")%string with "param/fees"%string.
    all_paths; settle_panic.
  - unfold GetOpenOrders. all_paths; settle_panic.
  - unfold GetTradingPairs. all_paths; settle_panic.
  - unfold GetDepth. all_paths; settle_panic.
  - unfold GetTimelock.
    change ("custom/" ++ TimeLockMsgRoute ++ "/" ++ "timelock")%string
      with "custom/timelock/timelock"%string.
    all_paths; settle_panic.
  - unfold GetProposals. all_paths; settle_panic.
  - unfold GetProposal, Println. all_paths; settle_panic.
  - unfold GetSwapByCreator. all_paths; settle_panic.
  - unfold GetSwapByRecipient. all_paths; settle_panic.
Qed.

Lemma path_queries_panic_iff_nil_result_witness :
  let n := Stub.constNode (None, None) in
  exists reason,
    fst (GetFee (C := Stub.client n) (Stub.st0 n)) = Panicked reason.
Proof.
  intro n.
  pose proof (path_queries_panic_iff_nil_result (C := Stub.client n)
                (Stub.st0 n) None None 1%nat) as [_ [_ [_ [Hf _]]]].
  apply Hf; [ reflexivity | split; reflexivity ].
Defined.

(** X12. [TxInfoSearch], [GetCommitAccount], [GetSwapByHash]
    and [GetTimelocks] return on every input and every answer of the
    collaborators.  [GetTimelocks] is the one path-addressed query that
    tests the result: a nil result beside a nil error gives it the error
    "zero records". *)
Theorem store_lookups_and_GetTimelocks_never_panic {P : Payloads} {C : Client}
    (s : State) :
  (forall query prove page perPage,
     exists v, fst (TxInfoSearch query prove page perPage s) = Returned v) /\
  (forall addr, exists v, fst (GetCommitAccount addr s) = Returned v) /\
  (forall randomNumberHash,
     exists v, fst (GetSwapByHash randomNumberHash s) = Returned v) /\
  (forall addr, exists v, fst (GetTimelocks addr s) = Returned v) /\
  (forall addr w',
     rpcABCIQuery "custom/timelock/timelocks"
       (fst (cdcMarshalJSON (QueryTimeLocksParams addr))) (world s) =
       ((None, None), w') ->
     fst (GetTimelocks addr s) =
       Returned (None, Some (errors_New "zero records"))).
Proof.
  repeat match goal with |- _ /\ _ => split end; intros.
  - unfold TxInfoSearch, WSEventsTxInfoSearch.
    all_paths; eexists; reflexivity.
  - unfold GetCommitAccount. all_paths; eexists; reflexivity.
  - unfold GetSwapByHash. all_paths; eexists; reflexivity.
  - unfold GetTimelocks. all_paths; eexists; reflexivity.
  - unfold GetTimelocks.
    change ("custom/" ++ TimeLockMsgRoute ++ "/" ++ "timelocks")%string
      with "custom/timelock/timelocks"%string.
    destruct (cdcMarshalJSON (QueryTimeLocksParams addr)) as [bz merr] eqn:Hm.
    cbn [fst] in H. destruct merr; run_op; reflexivity.
Qed.

Lemma store_lookups_and_GetTimelocks_never_panic_witness :
  let n := Stub.constNode (None, None) in
  fst (GetTimelocks (C := Stub.client n) Stub.addr (Stub.st0 n)) =
    Returned (None, Some (errors_New "zero records")).
Proof.
  intro n.
  pose proof (store_lookups_and_GetTimelocks_never_panic
                (C := Stub.client n) (Stub.st0 n)) as [_ [_ [_ [_ Hz]]]].
  apply (Hz Stub.addr 1%nat). reflexivity.
Defined.


(** ** Governance proposals *)

(** X13. [GetProposals] sends [NumLatestProposals] as the
    larger of [numLatest] and 0, and the status as given unless it is
    [StatusNil], which is sent as the zero status: the first thing a run
    does is encode exactly these parameters.  So every [numLatest] that is
    not positive gives the same run as 0. *)
Theorem GetProposals_clamps_numLatest {P : Payloads} {C : Client}
    (status : ProposalStatus) (numLatest : Z) (s : State) :
  (exists rest,
     trace (snd (GetProposals status numLatest s)) =
       (trace s ++
        EvMarshalJSON
          (QueryProposalsParams (if status =? StatusNil then 0 else status)
             (Z.max numLatest 0)) :: rest)%list)
  /\
  (numLatest <= 0 ->
   GetProposals status numLatest s = GetProposals status 0 s).
Proof.
  assert (Hn : (if numLatest >? 0 then numLatest else 0) = Z.max numLatest 0).
  { destruct (numLatest >? 0) eqn:Hg.
    - apply Z.gtb_lt in Hg. lia.
    - rewrite Z.gtb_ltb in Hg. apply Z.ltb_ge in Hg. lia. }
  assert (Hs : (if negb (status =? StatusNil) then status else 0) =
               (if status =? StatusNil then 0 else status))
    by (destruct (status =? StatusNil); reflexivity).
  split.
  - unfold GetProposals. rewrite Hn, Hs.
    all_paths; rewrite <- ?app_assoc; cbn [app]; eexists; reflexivity.
  - intros Hle. unfold GetProposals. rewrite Hn.
    replace (Z.max numLatest 0) with 0 by lia. reflexivity.
Qed.

Lemma GetProposals_clamps_numLatest_witness :
  let n := Stub.answering (Some [x01]) in
  GetProposals (C := Stub.client n) 2 (-5) (Stub.st0 n) =
    GetProposals (C := Stub.client n) 2 0 (Stub.st0 n).
Proof.
  intro n.
  apply (GetProposals_clamps_numLatest (C := Stub.client n) 2 (-5)
           (Stub.st0 n)). lia.
Defined.

(** X14. When the parameters encode, [GetProposal] writes the
    encoded bytes to standard output, as a string, once, after encoding
    and before the query is sent, whatever the transport and the decoder
    do afterwards. *)
Theorem GetProposal_prints_encoded_parameters {P : Payloads} {C : Client}
    (proposalId : Z) (bz : bytes) (s : State) :
  cdcMarshalJSON (QueryProposalParams proposalId) = (bz, None) ->
  (exists rest,
     trace (snd (GetProposal proposalId s)) =
       (trace s ++
        EvMarshalJSON (QueryProposalParams proposalId)
        :: EvPrintln (string_of_bytes bz)
        :: EvABCIQuery "custom/gov/proposal" bz :: rest)%list) /\
  filter is_println (trace (snd (GetProposal proposalId s))) =
    (filter is_println (trace s) ++ [EvPrintln (string_of_bytes bz)])%list.
Proof.
  intros Hm. unfold GetProposal, Println. split.
  - all_paths; rewrite <- ?app_assoc; cbn [app]; eexists; reflexivity.
  - all_paths; rewrite ?filter_app; cbn [filter is_println app];
      rewrite ?app_nil_r; reflexivity.
Qed.

Lemma GetProposal_prints_encoded_parameters_witness :
  let n := Stub.downNode in
  filter is_println
    (trace (snd (GetProposal (C := Stub.client n) 12 (Stub.st0 n)))) =
    [EvPrintln "{}"].
Proof.
  intro n.
  apply (GetProposal_prints_encoded_parameters (C := Stub.client n) 12
           (Some (bytes_of_string "{}")) (Stub.st0 n)).
  reflexivity.
Defined.


(** ** Balances of a named account *)

(** X15. When the account lookup gives a named account,
    [GetBalances] makes no further call and returns one record per entry
    of the total coins, in the order of the entries: the symbols of the
    records are the denominations of the coins, and each record holds the
    amounts of its symbol in the total, the locked and the frozen coins
    (free is the total amount; locked and frozen are not subtracted). *)
Theorem GetBalances_of_named_account {P : Payloads} {C : Client}
    (addr : AccAddress) (coins locked frozen : Coins) (s s' : State) :
  GetAccount addr s =
    (Returned (Some (NamedAcc (mkNamed coins locked frozen)), None), s') ->
  exists bals : list TokenBalance,
    GetBalances addr s = (Returned (Some bals, None), s') /\
    map Symbol bals = map Denom coins /\
    (forall b, In b bals ->
       Free b = AmountOf coins (Symbol b) /\
       Locked b = AmountOf locked (Symbol b) /\
       Frozen b = AmountOf frozen (Symbol b)).
Proof.
  intros Ha.
  exists (map (fun coin => specBalance coins locked frozen (Denom coin)) coins).
  split; [ exact (GetBalances_named addr coins locked frozen s s' Ha) | ].
  split.
  - rewrite map_map. reflexivity.
  - intros b Hb. apply in_map_iff in Hb. destruct Hb as [coin [<- _]].
    repeat split.
Qed.

Lemma GetBalances_of_named_account_witness :
  let n := Stub.accountNode (Some [x01]) in
  exists bals : list TokenBalance,
    GetBalances (C := Stub.client n) Stub.addr (Stub.st0 n) =
      (Returned (Some bals, None),
       mkState (C := Stub.client n) 1%nat
         [EvABCIQuery "/account/bnb1alice" None;
          EvUnmarshal BinaryBare SAccount (Some [x01])]) /\
    map Symbol bals = ["BNB"; "BUSD"] /\
    (forall b, In b bals ->
       Free b = AmountOf Stub.holdings (Symbol b) /\
       Locked b = AmountOf [mkCoin "BNB" 10] (Symbol b) /\
       Frozen b = AmountOf [] (Symbol b)).
Proof.
  intro n.
  apply (GetBalances_of_named_account (C := Stub.client n) Stub.addr
           Stub.holdings [mkCoin "BNB" 10] [] (Stub.st0 n)).
  reflexivity.
Defined.

(** X16. For a valid symbol that the probe finds, when the
    account lookup gives a named account, [GetBalance] returns the record
    of that symbol: its amounts in the total, the locked and the frozen
    coins.  When the account holds the symbol, this is the very record
    [GetBalances] lists for it. *)
Theorem GetBalance_of_named_account {P : Payloads} {C : Client}
    (addr : AccAddress) (symbol : string) (coins locked frozen : Coins)
    (s s1 s2 : State) :
  ValidateSymbol symbol = None ->
  existsCC symbol s = (Returned true, s1) ->
  GetAccount addr s1 =
    (Returned (Some (NamedAcc (mkNamed coins locked frozen)), None), s2) ->
  GetBalance addr symbol s =
    (Returned (Some (specBalance coins locked frozen symbol), None), s2) /\
  (In symbol (map Denom coins) ->
   exists bals,
     fst (GetBalances addr s1) = Returned (Some bals, None) /\
     In (specBalance coins locked frozen symbol) bals).
Proof.
  intros Hv He Ha. split.
  - unfold GetBalance. rewrite Hv. unfold bind at 1. rewrite He.
    cbn [negb]. unfold bind at 1. rewrite Ha. reflexivity.
  - intros Hin.
    exists (map (fun coin => specBalance coins locked frozen (Denom coin))
                coins).
    rewrite (GetBalances_named addr coins locked frozen s1 s2 Ha).
    split; [ reflexivity | ].
    apply in_map_iff in Hin. destruct Hin as [coin [<- Hc]].
    apply in_map_iff. exists coin. split; [ reflexivity | exact Hc ].
Qed.

Lemma GetBalance_of_named_account_witness :
  let n := Stub.accountNode (Some [x01]) in
  fst (GetBalance (C := Stub.client n) Stub.addr "BUSD" (Stub.st0 n)) =
    Returned (Some (mkTokenBalance "BUSD" 50 0 0), None).
Proof.
  intro n.
  refine (f_equal fst
            (proj1 (GetBalance_of_named_account (C := Stub.client n) Stub.addr
                      "BUSD" Stub.holdings [mkCoin "BNB" 10] [] (Stub.st0 n)
                      _ _ eq_refl eq_refl eq_refl))).
Defined.

(** X17. The balance operations add nothing to a failed
    account lookup: an error from [GetAccount] is returned as it is, with
    a nil result, by [GetBalances] and, once the probe has found the
    symbol, by [GetBalance].  An account that holds no coin, named or
    plain, gives [GetBalances] the empty list (not nil) and no error. *)
Theorem balances_follow_the_account_lookup {P : Payloads} {C : Client}
    (addr : AccAddress) :
  (forall (s s' : State) acc e,
     GetAccount addr s = (Returned (acc, Some e), s') ->
     GetBalances addr s = (Returned (None, Some e), s'))
  /\
  (forall (s s1 s2 : State) symbol acc e,
     ValidateSymbol symbol = None ->
     existsCC symbol s = (Returned true, s1) ->
     GetAccount addr s1 = (Returned (acc, Some e), s2) ->
     GetBalance addr symbol s = (Returned (None, Some e), s2))
  /\
  (forall (s s' : State) impl,
     GetAccount addr s = (Returned (Some impl, None), s') ->
     implGetCoins impl = [] ->
     GetBalances addr s = (Returned (Some [], None), s')).
Proof.
  repeat match goal with |- _ /\ _ => split end; intros.
  - unfold GetBalances, bind. rewrite H. reflexivity.
  - unfold GetBalance. rewrite H. unfold bind at 1. rewrite H0.
    cbn [negb]. unfold bind at 1. rewrite H1. reflexivity.
  - unfold GetBalances, bind. rewrite H. cbn [accountGetCoins].
    unfold ret at 1. rewrite H0. reflexivity.
Qed.

Lemma balances_follow_the_account_lookup_witness :
  let n := Stub.constNode (Stub.failed 7 "account query failed" None) in
  GetBalances (C := Stub.client n) Stub.addr (Stub.st0 n) =
    (Returned (None, Some (mkError "account query failed")),
     mkState (C := Stub.client n) 1%nat
       [EvABCIQuery "/account/bnb1alice" None]).
Proof.
  intro n.
  pose proof (balances_follow_the_account_lookup (C := Stub.client n)
                Stub.addr) as [Hb _].
  apply (Hb (Stub.st0 n) _ None). reflexivity.
Defined.

(** X18. For a valid symbol [GetBalance] makes the token probe and then
    at most the account query, in this order and each once, and the
    probe's outcome decides which: when the probe finds the token, two
    calls, the probe's and then the account query; when the probe does not
    find it, the probe's call only, and the result is the error
    "symbol not found"; when the probe panics, the probe's call only, and
    the run panics for the same reason. *)
Theorem GetBalance_makes_at_most_two_queries {P : Payloads} {C : Client}
    (addr : AccAddress) (symbol : string) (s : State) :
  ValidateSymbol symbol = None ->
  (fst (existsCC symbol s) = Returned true ->
   transport_calls (trace (snd (GetBalance addr symbol s))) =
     (transport_calls (trace s) ++
      [EvABCIQuery ("tokens/info/" ++ symbol) None;
       EvABCIQuery ("/account/" ++ AccAddressString addr) None])%list)
  /\
  (fst (existsCC symbol s) = Returned false ->
   fst (GetBalance addr symbol s) =
     Returned (None, Some (errors_New "symbol not found")) /\
   transport_calls (trace (snd (GetBalance addr symbol s))) =
     (transport_calls (trace s) ++
      [EvABCIQuery ("tokens/info/" ++ symbol) None])%list)
  /\
  (forall reason,
     fst (existsCC symbol s) = Panicked reason ->
     fst (GetBalance addr symbol s) = Panicked reason /\
     transport_calls (trace (snd (GetBalance addr symbol s))) =
       (transport_calls (trace s) ++
        [EvABCIQuery ("tokens/info/" ++ symbol) None])%list).
Proof.
  intros Hv.
  pose proof (existsCC_transport_calls symbol s) as Ht.
  destruct (existsCC symbol s) as [out s1] eqn:He. cbn [fst snd] in Ht |- *.
  split; [ | split ].
  - intros ->.
    rewrite (GetBalance_probe_true addr symbol s s1 Hv He), Ht.
    rewrite <- app_assoc. reflexivity.
  - intros ->.
    rewrite (GetBalance_probe_false addr symbol s s1 Hv He).
    split; [ reflexivity | exact Ht ].
  - intros reason ->.
    rewrite (GetBalance_probe_panic addr symbol s s1 reason Hv He).
    split; [ reflexivity | exact Ht ].
Qed.

Lemma GetBalance_makes_at_most_two_queries_witness :
  let n := Stub.accountNode (Some [x01]) in
  let d := Stub.downNode in
  transport_calls
    (trace (snd (GetBalance (C := Stub.client n) Stub.addr "BNB"
                   (Stub.st0 n)))) =
    [EvABCIQuery "tokens/info/BNB" None;
     EvABCIQuery "/account/bnb1alice" None] /\
  transport_calls
    (trace (snd (GetBalance (C := Stub.client d) Stub.addr "BNB"
                   (Stub.st0 d)))) =
    [EvABCIQuery "tokens/info/BNB" None].
Proof.
  intros n d.
  pose proof (GetBalance_makes_at_most_two_queries (C := Stub.client n)
                Stub.addr "BNB" (Stub.st0 n) eq_refl) as [Htwo _].
  pose proof (GetBalance_makes_at_most_two_queries (C := Stub.client d)
                Stub.addr "BNB" (Stub.st0 d) eq_refl) as [_ [Hone _]].
  split.
  - apply Htwo. reflexivity.
  - apply Hone. reflexivity.
Defined.


(** ** The two account views *)

(** X19. The store lookups test the stored value against nil
    only: every value that is not nil, the empty one included, goes to the
    bare-binary decoder.  On success the caller gets what was decoded; on
    a decode error [GetCommitAccount] gives a nil account and
    [GetSwapByHash] the zero swap, beside the error. *)
Theorem store_value_is_decoded {P : Payloads} {C : Client}
    (s : State) (v : list byte) (w' : World) :
  (forall addr,
     rpcQueryStore (bytes_of_string "account:" ++ addr)%list "acc" (world s) =
       ((Some v, None), w') ->
     fst (GetCommitAccount addr s) =
       Returned
         (match cdcUnmarshal BinaryBare SAccount (Some v) None with
          | (_, Some e) => (None, Some e)
          | (acc, None) => (acc, None)
          end) /\
     decode_calls (trace (snd (GetCommitAccount addr s))) =
       (decode_calls (trace s) ++
        [EvUnmarshal BinaryBare SAccount (Some v)])%list)
  /\
  (forall randomNumberHash,
     rpcQueryStore (x01 :: randomNumberHash) "atomic_swap" (world s) =
       ((Some v, None), w') ->
     fst (GetSwapByHash randomNumberHash s) =
       Returned
         (match cdcUnmarshal BinaryBare SAtomicSwap (Some v)
                  zeroAtomicSwap with
          | (_, Some e) => (zeroAtomicSwap, Some e)
          | (swap, None) => (swap, None)
          end) /\
     decode_calls (trace (snd (GetSwapByHash randomNumberHash s))) =
       (decode_calls (trace s) ++
        [EvUnmarshal BinaryBare SAtomicSwap (Some v)])%list).
Proof.
  split; intros.
  - unfold GetCommitAccount.
    change AccountStoreName with "acc"%string.
    run_op.
    destruct (cdcUnmarshal BinaryBare SAccount (Some v) None) as [? [? |]];
      (split; [ reflexivity | ]);
      cbn [snd trace]; rewrite !decode_calls_app; cbn; now rewrite app_nil_r.
  - unfold GetSwapByHash.
    change AtomicSwapStoreName with "atomic_swap"%string.
    change ([x01] ++ randomNumberHash)%list with (x01 :: randomNumberHash).
    run_op.
    destruct (cdcUnmarshal BinaryBare SAtomicSwap (Some v) zeroAtomicSwap)
      as [? [? |]];
      (split; [ reflexivity | ]);
      cbn [snd trace]; rewrite !decode_calls_app; cbn; now rewrite app_nil_r.
Qed.

Lemma store_value_is_decoded_witness :
  let n := Stub.answering (Some []) in
  fst (GetCommitAccount (C := Stub.client n) Stub.addr (Stub.st0 n)) =
    Returned (None, Some (mkError "cannot decode empty bytes")) /\
  decode_calls
    (trace (snd (GetCommitAccount (C := Stub.client n) Stub.addr
                   (Stub.st0 n)))) =
    [EvUnmarshal BinaryBare SAccount (Some [])].
Proof.
  intro n.
  pose proof (store_value_is_decoded (C := Stub.client n) (Stub.st0 n) []
                1%nat) as [Ha _].
  apply (Ha Stub.addr). reflexivity.
Defined.

(** X20. The committed view and the latest view of an account
    are decoded alike: when the store holds non-empty bytes under the
    account key and the path query answers success with the same bytes,
    [GetCommitAccount] and [GetAccount] return the same account or the
    same error, from whatever states they start. *)
Theorem committed_and_latest_views_decode_alike {P : Payloads} {C : Client}
    (addr : AccAddress) (v : list byte) (r : ResultABCIQuery)
    (s1 s2 : State) (w1 w2 : World) :
  rpcQueryStore (bytes_of_string "account:" ++ addr)%list "acc" (world s1) =
    ((Some v, None), w1) ->
  rpcABCIQuery ("/account/" ++ AccAddressString addr) None (world s2) =
    ((Some r, None), w2) ->
  IsOK (Response r) = true ->
  Value (Response r) = Some v ->
  v <> [] ->
  fst (GetCommitAccount addr s1) = fst (GetAccount addr s2).
Proof.
  intros Hs Hq Hok Hv Hne.
  assert (Hlen : len (Value (Response r)) <> 0).
  { rewrite Hv. destruct v as [| b v]; [ contradiction | ].
    cbn [len List.length]. lia. }
  rewrite (GetAccount_value addr s2 r w2 Hq Hok Hlen), Hv. cbn [fst].
  unfold GetCommitAccount. change AccountStoreName with "acc"%string.
  run_op.
  now destruct (cdcUnmarshal BinaryBare SAccount (Some v) None) as [? [? |]].
Qed.

Lemma committed_and_latest_views_decode_alike_witness :
  let n := Stub.answering (Some [x01]) in
  fst (GetCommitAccount (C := Stub.client n) Stub.addr (Stub.st0 n)) =
    fst (GetAccount (C := Stub.client n) Stub.addr (Stub.st0 n)).
Proof.
  intro n.
  apply (committed_and_latest_views_decode_alike (C := Stub.client n)
           Stub.addr [x01] (mkResult (mkResponse 0 "" (Some [x01])))
           (Stub.st0 n) (Stub.st0 n) 1%nat 1%nat);
    try reflexivity.
  discriminate.
Defined.
